(** * The MediaConvert job submitter ([main.py]): a shallow embedding

    [main.py] holds one function, the Lambda [handler].  It parses the
    request body, checks that four fields are present, derives the output
    locations by string operations, fills the job template, calls
    MediaConvert and formats a response.

    Conventions of the embedding.
    - A Python [str] is a Rocq [string]: the sequence of its UTF-8 bytes.
      Every character the handler searches for or inserts is ASCII, so
      concatenation, [rfind], slicing at the found positions and the
      comparisons below commute with the encoding.
    - A value produced by [json.loads] is a [json] tree; a [dict] is an
      association list in insertion order.
    - Everything the handler obtains from outside (clock, environment
      variables, the template file, the MediaConvert service) is a field
      of the [world] record; the calls it makes are recorded in a trace.
    - A Python exception is the [Raise] outcome of a [result].
    - The interpreter has the stack its calls of fixed depth need.  The
      depth [json.loads] needs grows with the nesting of its text;
      whether the stack holds it is a field of the [world] too, and so is
      the limit on the digits of an integer literal. *)

From Stdlib Require Import String Ascii List NArith ZArith Bool Lia Arith.
From Stdlib Require Import DecimalString.
Import ListNotations.

Local Open Scope list_scope.
Local Open Scope string_scope.

(** ** Characters and strings *)

Definition dquote : ascii := Eval cbv in ascii_of_nat 34.
Definition backslash : ascii := Eval cbv in ascii_of_nat 92.
Definition slash : ascii := "/"%char.
Definition dot : ascii := "."%char.

(** [s[i:]] for [0 <= i]. *)
Fixpoint drop (i : nat) (s : string) : string :=
  match i, s with
  | O, _ => s
  | S i', String _ r => drop i' r
  | S _, EmptyString => EmptyString
  end.

(** [s[:i]] for [0 <= i]. *)
Fixpoint take (i : nat) (s : string) : string :=
  match i, s with
  | O, _ => EmptyString
  | S i', String c r => String c (take i' r)
  | S _, EmptyString => EmptyString
  end.

(** [s[i:i+1]]: the one-character string at [i], empty out of range. *)
Definition char_at (i : nat) (s : string) : string := take 1 (drop i s).
Arguments char_at : simpl never.

(** [str.rfind]: scanning left to right, [last] is the highest match seen
    so far and [i] the index of the head of [s]. *)
Fixpoint rfind_from (c : ascii) (s : string) (i : Z) (last : Z) : Z :=
  match s with
  | EmptyString => last
  | String a r => rfind_from c r (i + 1) (if Ascii.eqb a c then i else last)
  end.

(** [s.rfind(c)]: the highest index of [c] in [s], [-1] when absent. *)
Definition rfind (c : ascii) (s : string) : Z := rfind_from c s 0 (-1).

(** [sub in s] for two strings. *)
Fixpoint str_contains (sub s : string) : bool :=
  String.prefix sub s ||
  match s with
  | EmptyString => false
  | String _ r => str_contains sub r
  end.

(** ** [posixpath.basename] and [posixpath.splitext] *)

(** [i = p.rfind('/') + 1; return p[i:]] *)
Definition basename (p : string) : string :=
  let i := (rfind slash p + 1)%Z in
  drop (Z.to_nat i) p.

(** The [while filenameIndex < dotIndex] loop of [genericpath._splitext]:
    [true] when some character in [filenameIndex, filenameIndex + n) is
    not the extension separator, which is where the source returns the
    split. *)
Fixpoint non_dot_before (p : string) (filenameIndex : nat) (n : nat) : bool :=
  match n with
  | O => false
  | S n' =>
      if negb (String.eqb (char_at filenameIndex p) (String dot EmptyString))
      then true
      else non_dot_before p (S filenameIndex) n'
  end.

(** [genericpath._splitext(p, '/', None, '.')] *)
Definition splitext (p : string) : string * string :=
  let sepIndex := rfind slash p in
  let dotIndex := rfind dot p in
  if (sepIndex <? dotIndex)%Z then
    let filenameIndex := (sepIndex + 1)%Z in
    if non_dot_before p (Z.to_nat filenameIndex)
                      (Z.to_nat (dotIndex - filenameIndex))
    then (take (Z.to_nat dotIndex) p, drop (Z.to_nat dotIndex) p)
    else (p, EmptyString)
  else (p, EmptyString).

(** [os.path.splitext(os.path.basename(video_source_url))[0]] *)
Definition sourceS3Basename (video_source_url : string) : string :=
  fst (splitext (basename video_source_url)).

(** ** Exceptions and results *)

Inductive exn : Type :=
| KeyError (key : string)
| TypeError
| IndexError
| JSONDecodeError
| ValueError
| RecursionError
| UnboundLocalError (name : string)
| FileNotFoundError (path : string)
| ClientError (message : string)
| OtherError (message : string).

Inductive result (A : Type) : Type :=
| Ok (a : A)
| Raise (e : exn).
Arguments Ok {A} a.
Arguments Raise {A} e.

Definition rbind {A B : Type} (m : result A) (f : A -> result B) : result B :=
  match m with
  | Ok a => f a
  | Raise e => Raise e
  end.

(** ** JSON values and dictionaries *)

(** The values [json.loads] builds.  A float keeps the text of its
    literal: its binary value is never inspected by the handler. *)
#[warnings="-register-all"]
Inductive json : Type :=
| JNull
| JBool (b : bool)
| JInt (z : Z)
| JFloat (literal : string)
| JStr (s : string)
| JArr (items : list json)
| JObj (members : list (string * json)).

Definition dict : Type := list (string * json).

(** [d.get(k)] as an option. *)
Fixpoint dict_get (k : string) (d : dict) : option json :=
  match d with
  | [] => None
  | (k', v) :: r => if String.eqb k k' then Some v else dict_get k r
  end.

(** [d[k] = v]: an existing key keeps its position, a new one goes last. *)
Fixpoint dict_set (k : string) (v : json) (d : dict) : dict :=
  match d with
  | [] => [(k, v)]
  | (k', v') :: r =>
      if String.eqb k k' then (k, v) :: r else (k', v') :: dict_set k v r
  end.

(** [k in d] for a dictionary. *)
Definition dict_mem (k : string) (d : dict) : bool :=
  match dict_get k d with
  | Some _ => true
  | None => false
  end.

(** [dict(pairs)]: later pairs overwrite earlier ones. *)
Definition dict_of_pairs (pairs : list (string * json)) : dict :=
  fold_left (fun d kv => dict_set (fst kv) (snd kv) d) pairs [].

(** ** [json.loads] *)

Definition is_ws (c : ascii) : bool :=
  let n := nat_of_ascii c in
  Nat.eqb n 32 || Nat.eqb n 9 || Nat.eqb n 10 || Nat.eqb n 13.

Fixpoint skip_ws (s : string) : string :=
  match s with
  | EmptyString => EmptyString
  | String c r => if is_ws c then skip_ws r else s
  end.

Definition is_digit (c : ascii) : bool :=
  let n := nat_of_ascii c in
  Nat.leb 48 n && Nat.leb n 57.

Definition digit_value (c : ascii) : Z := Z.of_nat (nat_of_ascii c) - 48.

(** The longest prefix of decimal digits, and what follows it. *)
Fixpoint span_digits (s : string) : string * string :=
  match s with
  | EmptyString => (EmptyString, EmptyString)
  | String c r =>
      if is_digit c
      then let '(ds, rest) := span_digits r in (String c ds, rest)
      else (EmptyString, s)
  end.

Fixpoint Z_of_digits (acc : Z) (ds : string) : Z :=
  match ds with
  | EmptyString => acc
  | String c r => Z_of_digits (10 * acc + digit_value c) r
  end.

Definition is_empty (s : string) : bool :=
  match s with
  | EmptyString => true
  | String _ _ => false
  end.

(** [NUMBER_RE.match]: an optional minus sign, then [0] or a digit from 1 to
    9 followed by digits; optionally a dot and at least one digit;
    optionally [e] or [E], an optional sign and at least one digit.  The
    optional groups match only when complete.  [None] when the text does
    not start with a number.

    The value is an [int] when neither a fraction nor an exponent matched.
    [int(integer)] raises [ValueError] when the literal has more digits
    than the interpreter converts: more than 640 and more than
    [max_digits], a [max_digits] of 0 meaning no limit
    ([sys.get_int_max_str_digits()]).  A [float] has no such limit. *)
Definition match_number (max_digits : nat) (s : string)
  : option (result (json * string)) :=
  let '(negative, s1) :=
    match s with
    | String c r => if Ascii.eqb c "-" then (true, r) else (false, s)
    | EmptyString => (false, s)
    end in
  match s1 with
  | EmptyString => None
  | String c r =>
      if is_digit c then
        let '(ds, r1) :=
          if Ascii.eqb c "0" then (EmptyString, r) else span_digits r in
        let integer := String c ds in
        let '(frac, r2) :=
          match r1 with
          | String d r' =>
              if Ascii.eqb d dot then
                let '(fs, r'') := span_digits r' in
                if is_empty fs then (EmptyString, r1) else (String d fs, r'')
              else (EmptyString, r1)
          | EmptyString => (EmptyString, r1)
          end in
        let '(exp, r3) :=
          match r2 with
          | String e r' =>
              if Ascii.eqb e "e" || Ascii.eqb e "E" then
                let '(sg, r'') :=
                  match r' with
                  | String g t =>
                      if Ascii.eqb g "+" || Ascii.eqb g "-"
                      then (String g EmptyString, t)
                      else (EmptyString, r')
                  | EmptyString => (EmptyString, r')
                  end in
                let '(es, r''') := span_digits r'' in
                if is_empty es then (EmptyString, r2)
                else (String e (sg ++ es), r''')
              else (EmptyString, r2)
          | EmptyString => (EmptyString, r2)
          end in
        if is_empty frac && is_empty exp then
          let digits := String.length integer in
          if Nat.ltb 640 digits && Nat.ltb 0 max_digits
             && Nat.ltb max_digits digits
          then Some (Raise ValueError)
          else
            let v := Z_of_digits 0 integer in
            Some (Ok (JInt (if negative then (- v)%Z else v), r3))
        else
          Some (Ok (JFloat ((if negative then "-" else "")
                            ++ integer ++ frac ++ exp),
                    r3))
      else None
  end.

Definition hex_value (c : ascii) : option N :=
  let n := N_of_ascii c in
  if (48 <=? n)%N && (n <=? 57)%N then Some (n - 48)%N
  else if (65 <=? n)%N && (n <=? 70)%N then Some (n - 55)%N
  else if (97 <=? n)%N && (n <=? 102)%N then Some (n - 87)%N
  else None.

(** [_decode_uXXXX]: four hexadecimal digits. *)
Definition hex4 (a b c d : ascii) : option N :=
  match hex_value a, hex_value b, hex_value c, hex_value d with
  | Some x, Some y, Some z, Some w => Some (((x * 16 + y) * 16 + z) * 16 + w)%N
  | _, _, _, _ => None
  end.

(** [chr(cp)], as the UTF-8 bytes of the code point. *)
Definition chr (cp : N) : string :=
  let b (n : N) : ascii := ascii_of_N n in
  let cont (n : N) : ascii := ascii_of_N (128 + n mod 64)%N in
  if (cp <? 128)%N then String (b cp) EmptyString
  else if (cp <? 2048)%N then
    String (b (192 + cp / 64)%N) (String (cont cp) EmptyString)
  else if (cp <? 65536)%N then
    String (b (224 + cp / 4096)%N)
      (String (cont (cp / 64)%N) (String (cont cp) EmptyString))
  else
    String (b (240 + cp / 262144)%N)
      (String (cont (cp / 4096)%N)
         (String (cont (cp / 64)%N) (String (cont cp) EmptyString))).

(** The [BACKSLASH] table of [json.decoder]. *)
Definition unescape (esc : ascii) : option ascii :=
  if Ascii.eqb esc dquote then Some dquote
  else if Ascii.eqb esc backslash then Some backslash
  else if Ascii.eqb esc "/" then Some "/"%char
  else if Ascii.eqb esc "b" then Some (ascii_of_nat 8)
  else if Ascii.eqb esc "f" then Some (ascii_of_nat 12)
  else if Ascii.eqb esc "n" then Some (ascii_of_nat 10)
  else if Ascii.eqb esc "r" then Some (ascii_of_nat 13)
  else if Ascii.eqb esc "t" then Some (ascii_of_nat 9)
  else None.

Definition prepend (chunk : string) (m : option (string * string))
  : option (string * string) :=
  match m with
  | Some (content, rest) => Some (chunk ++ content, rest)
  | None => None
  end.

Definition is_high_surrogate (u : N) : bool := (55296 <=? u)%N && (u <=? 56319)%N.
Definition is_low_surrogate (u : N) : bool := (56320 <=? u)%N && (u <=? 57343)%N.

(** [scanstring(s, end, strict=True)], entered after the opening quote:
    the decoded content and the text after the closing quote. *)
Fixpoint scanstring (s : string) : option (string * string) :=
  match s with
  | EmptyString => None
  | String c r =>
      if Ascii.eqb c dquote then Some (EmptyString, r)
      else if Ascii.eqb c backslash then
        match r with
        | EmptyString => None
        | String esc r1 =>
            if Ascii.eqb esc "u" then
              match r1 with
              | String h1 (String h2 (String h3 (String h4 r2))) =>
                  match hex4 h1 h2 h3 h4 with
                  | None => None
                  | Some uni =>
                      match r2 with
                      | String b (String u (String k1 (String k2
                          (String k3 (String k4 r3))))) =>
                          if is_high_surrogate uni && Ascii.eqb b backslash
                             && Ascii.eqb u "u"
                          then
                            match hex4 k1 k2 k3 k4 with
                            | None => None
                            | Some uni2 =>
                                if is_low_surrogate uni2 then
                                  prepend
                                    (chr (65536 + (uni - 55296) * 1024
                                          + (uni2 - 56320))%N)
                                    (scanstring r3)
                                else prepend (chr uni) (scanstring r2)
                            end
                          else prepend (chr uni) (scanstring r2)
                      | _ => prepend (chr uni) (scanstring r2)
                      end
                  end
              | _ => None
              end
            else
              match unescape esc with
              | Some ch => prepend (String ch EmptyString) (scanstring r1)
              | None => None
              end
        end
      else if Nat.ltb (nat_of_ascii c) 32 then None
      else prepend (String c EmptyString) (scanstring r)
  end.

(** [scan_once], [JSONObject] and [JSONArray] of [json.decoder], on the
    text that remains at the current position.  A text the decoder
    rejects is a [JSONDecodeError]; [max_digits] is the limit of
    [match_number].  The scanner calls itself at every opening brace and
    bracket; whether the stack of the interpreter holds that nesting is
    not decided here but by the world (see [json_loads]).

    [fuel] bounds the depth of the mutual calls of the embedding;
    [json_decode] supplies more than the input can use (see
    [scan_once_fuel]).

    [object_members] is the [while True] loop of [JSONObject], entered
    after the opening quote of a key; [array_items] is the loop of
    [JSONArray], entered at the start of an item. *)
Fixpoint scan_once (max_digits fuel : nat) (s : string)
  : result (json * string) :=
  match fuel with
  | O => Raise JSONDecodeError
  | S fuel' =>
      match s with
      | EmptyString => Raise JSONDecodeError
      | String c r =>
          if Ascii.eqb c dquote then
            match scanstring r with
            | Some (content, rest) => Ok (JStr content, rest)
            | None => Raise JSONDecodeError
            end
          else if Ascii.eqb c "{" then
            match skip_ws r with
            | String c1 r1 =>
                if Ascii.eqb c1 "}" then Ok (JObj [], r1)
                else if Ascii.eqb c1 dquote
                then object_members max_digits fuel' [] r1
                else Raise JSONDecodeError
            | EmptyString => Raise JSONDecodeError
            end
          else if Ascii.eqb c "[" then
            match skip_ws r with
            | String c1 r1 =>
                if Ascii.eqb c1 "]" then Ok (JArr [], r1)
                else array_items max_digits fuel' [] (String c1 r1)
            | EmptyString => Raise JSONDecodeError
            end
          else if String.prefix "null" s then Ok (JNull, drop 4 s)
          else if String.prefix "true" s then Ok (JBool true, drop 4 s)
          else if String.prefix "false" s then Ok (JBool false, drop 5 s)
          else
            match match_number max_digits s with
            | Some res => res
            | None =>
                if String.prefix "NaN" s then Ok (JFloat "NaN", drop 3 s)
                else if String.prefix "Infinity" s
                then Ok (JFloat "Infinity", drop 8 s)
                else if String.prefix "-Infinity" s
                then Ok (JFloat "-Infinity", drop 9 s)
                else Raise JSONDecodeError
            end
      end
  end

with object_members (max_digits fuel : nat)
    (pairs : list (string * json)) (s : string) : result (json * string) :=
  match fuel with
  | O => Raise JSONDecodeError
  | S fuel' =>
      match scanstring s with
      | None => Raise JSONDecodeError
      | Some (key, s1) =>
          match skip_ws s1 with
          | String colon s2 =>
              if Ascii.eqb colon ":" then
                match scan_once max_digits fuel' (skip_ws s2) with
                | Raise e => Raise e
                | Ok (value, s3) =>
                    let pairs' := (pairs ++ [(key, value)])%list in
                    match skip_ws s3 with
                    | String nextchar s4 =>
                        if Ascii.eqb nextchar "}"
                        then Ok (JObj (dict_of_pairs pairs'), s4)
                        else if Ascii.eqb nextchar "," then
                          match skip_ws s4 with
                          | String q s5 =>
                              if Ascii.eqb q dquote
                              then object_members max_digits fuel'
                                     pairs' s5
                              else Raise JSONDecodeError
                          | EmptyString => Raise JSONDecodeError
                          end
                        else Raise JSONDecodeError
                    | EmptyString => Raise JSONDecodeError
                    end
                end
              else Raise JSONDecodeError
          | EmptyString => Raise JSONDecodeError
          end
      end
  end

with array_items (max_digits fuel : nat) (values : list json)
    (s : string) : result (json * string) :=
  match fuel with
  | O => Raise JSONDecodeError
  | S fuel' =>
      match scan_once max_digits fuel' s with
      | Raise e => Raise e
      | Ok (value, s1) =>
          let values' := (values ++ [value])%list in
          match skip_ws s1 with
          | String nextchar s2 =>
              if Ascii.eqb nextchar "]" then Ok (JArr values', s2)
              else if Ascii.eqb nextchar ","
              then array_items max_digits fuel' values' (skip_ws s2)
              else Raise JSONDecodeError
          | EmptyString => Raise JSONDecodeError
          end
      end
  end.

(** [JSONDecoder.decode(s)] for a [str], on a stack that holds the nesting
    of [s]: leading white space, one value, trailing white space, end of
    input. *)
Definition json_decode (max_digits : nat) (s : string) : result json :=
  match scan_once max_digits (2 * String.length s + 2) (skip_ws s) with
  | Ok (v, rest) =>
      if is_empty (skip_ws rest) then Ok v else Raise JSONDecodeError
  | Raise e => Raise e
  end.

(** The exceptions [json.loads] raises on a [str]: [JSONDecodeError] for a
    text it does not accept, [ValueError] for an integer literal over the
    digit limit, [RecursionError] for nesting the stack does not hold. *)
Definition decoder_error (e : exn) : Prop :=
  e = JSONDecodeError \/ e = ValueError \/ e = RecursionError.

(** ** Subscripts, membership and [str] *)

Inductive subscript : Type :=
| Key (k : string)
| Index (i : nat).

(** [obj[sub]] for the subscripts the handler writes: a string key or a
    non-negative integer.  A [dict] built by [json.loads] has only string
    keys, so an integer subscript on it is a [KeyError]. *)
Definition py_getitem (obj : json) (sub : subscript) : result json :=
  match obj, sub with
  | JObj d, Key k =>
      match dict_get k d with
      | Some v => Ok v
      | None => Raise (KeyError k)
      end
  | JObj d, Index i => Raise (KeyError (NilZero.string_of_uint (Nat.to_uint i)))
  | JArr l, Index i =>
      match nth_error l i with
      | Some v => Ok v
      | None => Raise IndexError
      end
  | JStr s, Index i =>
      match char_at i s with
      | EmptyString => Raise IndexError
      | c => Ok (JStr c)
      end
  | _, _ => Raise TypeError
  end.

(** [obj[a][b]...] read from left to right. *)
Fixpoint py_getitem_path (obj : json) (path : list subscript) : result json :=
  match path with
  | [] => Ok obj
  | sub :: path' => rbind (py_getitem obj sub) (fun child => py_getitem_path child path')
  end.

(** [obj[k] = x]: only a [dict] supports assignment by a string key. *)
Definition py_setitem (obj : json) (k : string) (x : json) : result json :=
  match obj with
  | JObj d => Ok (JObj (dict_set k x d))
  | _ => Raise TypeError
  end.

Fixpoint list_set {A : Type} (i : nat) (x : A) (l : list A) : list A :=
  match i, l with
  | _, [] => []
  | O, _ :: r => x :: r
  | S i', a :: r => a :: list_set i' x r
  end.

(** The container [obj] after its child at [sub] was mutated into
    [child'].  A character read from a [str] is a fresh object, so the
    string itself never changes. *)
Definition replace_child (obj : json) (sub : subscript) (child' : json) : json :=
  match obj, sub with
  | JObj d, Key k => JObj (dict_set k child' d)
  | JArr l, Index i => JArr (list_set i child' l)
  | _, _ => obj
  end.

(** [obj[p1]...[pn][k] = x].  The template is a tree with a single
    reference to each node, so the in-place update is the tree rebuilt
    along the path. *)
Fixpoint assign_at (obj : json) (path : list subscript) (k : string) (x : json)
  : result json :=
  match path with
  | [] => py_setitem obj k x
  | sub :: path' =>
      rbind (py_getitem obj sub) (fun child =>
      rbind (assign_at child path' k x) (fun child' =>
      Ok (replace_child obj sub child')))
  end.

Definition json_is_str (k : string) (v : json) : bool :=
  match v with
  | JStr s => String.eqb k s
  | _ => false
  end.

(** [k in container] for a string [k]: key membership in a [dict], element
    equality in a [list], substring search in a [str]; the other JSON
    values are not iterable. *)
Definition py_in (k : string) (container : json) : result bool :=
  match container with
  | JObj d => Ok (dict_mem k d)
  | JArr l => Ok (existsb (json_is_str k) l)
  | JStr s => Ok (str_contains k s)
  | _ => Raise TypeError
  end.

Definition py_not_in (k : string) (container : json) : result bool :=
  rbind (py_in k container) (fun b => Ok (negb b)).

(** [a or b]: [b] is evaluated only when [a] is false. *)
Definition py_or (a b : result bool) : result bool :=
  match a with
  | Ok true => Ok true
  | Ok false => b
  | Raise e => Raise e
  end.

(** [str(int)] *)
Definition str_of_int (z : Z) : string := NilZero.string_of_int (Z.to_int z).

(** ** The clock and [strftime] *)

Record datetime : Type := {
  year : N;
  month : N;
  day : N;
  hour : N;
  minute : N;
  second : N;
  microsecond : N
}.

(** The ranges a [datetime] object guarantees, with the year at four
    digits (below 1000 the padding of [%Y] depends on the C library). *)
Definition valid_datetime (d : datetime) : Prop :=
  (1000 <= year d <= 9999 /\ 1 <= month d <= 12 /\ 1 <= day d <= 31 /\
   hour d <= 23 /\ minute d <= 59 /\ second d <= 59)%N.

Definition digit (n : N) : ascii := ascii_of_N (48 + n mod 10)%N.

(** [n] as a zero-padded decimal number of [width] digits. *)
Fixpoint zero_padded (width : nat) (n : N) : string :=
  match width with
  | O => EmptyString
  | S width' => zero_padded width' (n / 10)%N ++ String (digit n) EmptyString
  end.

(** [d.strftime(fmt)] for the directives [%Y %m %d %H %M %S]; any other
    character is copied. *)
Fixpoint strftime (d : datetime) (fmt : string) : string :=
  match fmt with
  | String "%" (String c r) =>
      if Ascii.eqb c "Y" then zero_padded 4 (year d) ++ strftime d r
      else if Ascii.eqb c "m" then zero_padded 2 (month d) ++ strftime d r
      else if Ascii.eqb c "d" then zero_padded 2 (day d) ++ strftime d r
      else if Ascii.eqb c "H" then zero_padded 2 (hour d) ++ strftime d r
      else if Ascii.eqb c "M" then zero_padded 2 (minute d) ++ strftime d r
      else if Ascii.eqb c "S" then zero_padded 2 (second d) ++ strftime d r
      else String "%" (String c (strftime d r))
  | String c r => String c (strftime d r)
  | EmptyString => EmptyString
  end.

(** ** The world outside the handler *)

(** A client object returned by [boto3.client]. *)
Record client : Type := {
  service_name : string;
  region_name : string;
  endpoint_url : option json;
  verify : option bool
}.

Record world : Type := {
  (** [datetime.datetime.now()] *)
  now : datetime;
  (** [os.environ] *)
  environ : list (string * string);
  (** [open(path).read()] *)
  read_file : string -> result string;
  (** [str(v)] for a float, a list or a dict, which the embedding does not
      compute *)
  repr_of : json -> string;
  (** [sys.get_int_max_str_digits()]: 4300 unless configured, 0 for no
      limit *)
  int_max_str_digits : nat;
  (** whether [json.loads] at line 15 exhausts the stack on this text and
      raises [RecursionError]: the decoder calls itself at every nested
      container, and near the limit the interpreter also raises it in
      place of a [JSONDecodeError] it has no room left to build *)
  loads_recursion_error : string -> bool;
  (** the same for [json.load] at line 46, which calls [json.loads] from
      one frame deeper *)
  load_recursion_error : string -> bool;
  (** [boto3.client(...)]: whether building the client raises *)
  boto3_client : client -> result unit;
  (** [client.describe_endpoints()] *)
  describe_endpoints : client -> result json;
  (** [client.create_job(Role=, UserMetadata=, Settings=)] *)
  create_job : client -> string -> json -> json -> result json
}.

(** What the handler does to the outside, in order. *)
Inductive effect : Type :=
| Print (args : list json)
| PrintException (e : exn)
| Open (path : string)
| Boto3Client (c : client)
| DescribeEndpoints (c : client)
| CreateJob (c : client) (Role : string) (UserMetadata Settings : json).

(** A computation: the effects performed, then a value or an exception. *)
Definition M (A : Type) : Type := list effect * result A.

Definition ret {A : Type} (a : A) : M A := ([], Ok a).

Definition bind {A B : Type} (m : M A) (f : A -> M B) : M B :=
  match m with
  | (t, Ok a) => let '(t', r) := f a in ((t ++ t')%list, r)
  | (t, Raise e) => (t, Raise e)
  end.

Definition lift {A : Type} (r : result A) : M A := ([], r).

(** An outside call: recorded, then its outcome. *)
Definition call {A : Type} (e : effect) (outcome : result A) : M A := ([e], outcome).

Notation "x <- m ;; k" := (bind m (fun x => k))
  (at level 61, m at next level, right associativity).

(** [str(v)], also what an f-string does with [{v}]. *)
Definition py_str (w : world) (v : json) : string :=
  match v with
  | JStr s => s
  | JInt z => str_of_int z
  | JBool true => "True"
  | JBool false => "False"
  | JNull => "None"
  | JFloat _ | JArr _ | JObj _ => repr_of w v
  end.

(** [os.environ[name]] *)
Fixpoint environ_get (env : list (string * string)) (name : string) : result string :=
  match env with
  | [] => Raise (KeyError name)
  | (k, v) :: r => if String.eqb name k then Ok v else environ_get r name
  end.

(** [json.loads(s)] in the interpreter of the world: [RecursionError] on
    the texts whose nesting the stack does not hold, the outcome of the
    decoder on the others.  An [int] it returns passed the digit limit, so
    [str] of it does too. *)
Definition json_loads (w : world) (s : string) : result json :=
  if loads_recursion_error w s then Raise RecursionError
  else json_decode (int_max_str_digits w) s.

(** [json.load(fp)] on the text read from the file: [json.loads] of it,
    one frame deeper. *)
Definition json_load (w : world) (content : string) : result json :=
  if load_recursion_error w content then Raise RecursionError
  else json_decode (int_max_str_digits w) content.

(** [json.loads(v)] for a value taken from the event: only a [str] is
    accepted. *)
Definition loads (w : world) (v : json) : result json :=
  match v with
  | JStr s => json_loads w s
  | _ => Raise TypeError
  end.

(** A value used where the source needs a [str] ([os.path.basename(v)],
    ['s3://' + v]). *)
Definition as_str (v : json) : result string :=
  match v with
  | JStr s => Ok s
  | _ => Raise TypeError
  end.

(** ** The response *)

(** The text [json.dumps(v)] returns, kept as the value it encodes. *)
Inductive json_text : Type :=
| json_dumps (v : json).

Record response : Type := {
  statusCode : Z;
  body : json_text;
  headers : list (string * string)
}.

(** The [headers] literal, written twice in the source. *)
Definition cors_headers : list (string * string) :=
  [("Content-Type", "application/json"); ("Access-Control-Allow-Origin", "*")].

(** The second argument of the handler, which it never reads. *)
Inductive LambdaContext : Type :=
| lambda_context.

(** ** The handler *)

(** ['s3://' + destination_bucket_name] *)
Definition destinationS3 (destination_bucket_name : string) : string :=
  "s3://" ++ destination_bucket_name.

(** [datetime.datetime.now().strftime("%Y%m%d%H%M%S")] *)
Definition currentTime_in_string (w : world) : string :=
  strftime (now w) "%Y%m%d%H%M%S".

(** [f"/public/{uniqueId}/{currentTime_in_string}/HLS/{sourceS3Basename}"] *)
Definition video_S3Key (uniqueId currentTime basename : string) : string :=
  "/public/" ++ uniqueId ++ "/" ++ currentTime ++ "/HLS/" ++ basename.

(** [f"https://{destination_bucket_name}.s3.{destination_bucket_region}.amazonaws.com{video_S3Key}.m3u8"] *)
Definition final_video_hls_url (bucket region key : string) : string :=
  "https://" ++ bucket ++ ".s3." ++ region ++ ".amazonaws.com" ++ key ++ ".m3u8".

Definition required_fields_error : string :=
  "Error: Required fields are missing in request body".

(** The condition of the [if] at line 18. *)
Definition missing_required (reqBody : json) : result bool :=
  py_or (py_not_in "video_source_url" reqBody)
    (py_or (py_not_in "destination_bucket" reqBody)
       (py_or (py_not_in "destination_bucket_region" reqBody)
          (py_not_in "uniqueId" reqBody))).

Definition inputs_path : list subscript := [Key "Inputs"; Index 0].

Definition hls_group_path : list subscript :=
  [Key "OutputGroups"; Index 0; Key "OutputGroupSettings"; Key "HlsGroupSettings"].

(** [boto3.client('mediaconvert', region_name=region)] *)
Definition discovery_client (region : string) : client :=
  {| service_name := "mediaconvert"; region_name := region;
     endpoint_url := None; verify := None |}.

(** [boto3.client('mediaconvert', region_name=region, endpoint_url=url,
    verify=False)] *)
Definition job_client (region : string) (url : json) : client :=
  {| service_name := "mediaconvert"; region_name := region;
     endpoint_url := Some url; verify := Some false |}.

(** Lines 46 to 70 of the [try] block: the template is loaded and filled,
    the endpoint discovered and the job submitted.  The value is what the
    rest of the block reads: the filled template and the object key. *)
Definition submit_job (w : world) (video_source_url uniqueId : string)
    (destination basename currentTime mediaConvertRole region : string)
    (jobMetadata : json) : M (json * string) :=
  content <- call (Open "job.json") (read_file w "job.json") ;;
  jobSettings <- lift (json_load w content) ;;
  let mc_client := discovery_client region in
  _ <- call (Boto3Client mc_client) (boto3_client w mc_client) ;;
  endpoints <- call (DescribeEndpoints mc_client) (describe_endpoints w mc_client) ;;
  url <- lift (py_getitem_path endpoints [Key "Endpoints"; Index 0; Key "Url"]) ;;
  let client := job_client region url in
  _ <- call (Boto3Client client) (boto3_client w client) ;;
  jobSettings <- lift (assign_at jobSettings inputs_path "FileInput"
                         (JStr video_source_url)) ;;
  let key := video_S3Key uniqueId currentTime basename in
  jobSettings <- lift (assign_at jobSettings hls_group_path "Destination"
                         (JStr (destination ++ key))) ;;
  job <- call (CreateJob client mediaConvertRole jobMetadata jobSettings)
              (create_job w client mediaConvertRole jobMetadata jobSettings) ;;
  ret (jobSettings, key).

(** Lines 71 to 76: [outputData] is bound to an empty [dict] and filled.
    The first component is the binding of [outputData] when the lines
    end, the second whether they raised. *)
Definition build_output (w : world) (jobSettings : json)
    (destination bucket : string) (destination_bucket_region : json)
    (key : string) : option dict * result unit :=
  let outputData : dict := [] in
  match py_getitem_path jobSettings (hls_group_path ++ [Key "Destination"])%list with
  | Raise e => (Some outputData, Raise e)
  | Ok final_video_url =>
      let outputData := dict_set "final_video_url" final_video_url outputData in
      let outputData := dict_set "thumbnail_url" (JStr "") outputData in
      let outputData := dict_set "video_s3_key" (JStr key) outputData in
      let outputData :=
        dict_set "video_s3_path" (JStr (destination ++ key)) outputData in
      let outputData :=
        dict_set "final_video_hls_url"
          (JStr (final_video_hls_url bucket (py_str w destination_bucket_region) key))
          outputData in
      (Some outputData, Ok tt)
  end.

(** The body of the [try]: its effects, the binding of [outputData] when
    it ends ([None] while the name is unbound) and whether it raised. *)
Definition try_body (w : world) (video_source_url uniqueId : string)
    (destination bucket : string) (destination_bucket_region : json)
    (basename currentTime mediaConvertRole region : string)
    (jobMetadata : json) : list effect * option dict * result unit :=
  match submit_job w video_source_url uniqueId destination basename currentTime
          mediaConvertRole region jobMetadata with
  | (t, Raise e) => (t, None, Raise e)
  | (t, Ok (jobSettings, key)) =>
      let '(outputData, r) :=
        build_output w jobSettings destination bucket destination_bucket_region key in
      (t, outputData, r)
  end.

(** Lines 25 to 88, reached when no required field is missing.

    The [try] statement: when the body raises, the [except] clause prints
    the exception, sets [statusCode] to 500 and re-raises; the [finally]
    clause then runs in every case and executes a [return].  A [return] in
    a [finally] clause discards the exception being propagated, and an
    exception raised while the clause builds its value replaces it: this
    is what reading the unbound name [outputData] does. *)
Definition convert (w : world) (reqBody : json) : M response :=
  video_source_url <- lift (py_getitem reqBody (Key "video_source_url")) ;;
  destination_bucket_name <- lift (py_getitem reqBody (Key "destination_bucket")) ;;
  destination_bucket_region <-
    lift (py_getitem reqBody (Key "destination_bucket_region")) ;;
  uniqueId_value <- lift (py_getitem reqBody (Key "uniqueId")) ;;
  let uniqueId := py_str w uniqueId_value in
  url <- lift (as_str video_source_url) ;;
  let basename := sourceS3Basename url in
  bucket <- lift (as_str destination_bucket_name) ;;
  let destination := destinationS3 bucket in
  let currentTime := currentTime_in_string w in
  mediaConvertRole <- lift (environ_get (environ w) "MediaConvertRole") ;;
  region <- lift (environ_get (environ w) "AWS_DEFAULT_REGION") ;;
  let statusCode := 200%Z in
  let jobMetadata := JObj [("assetID", JStr uniqueId)] in
  let '(t, outputData, r) :=
    try_body w url uniqueId destination bucket destination_bucket_region
      basename currentTime mediaConvertRole region jobMetadata in
  let '(t_except, statusCode) :=
    match r with
    | Ok _ => ([], statusCode)
    | Raise e => ([PrintException e], 500%Z)
    end in
  let finally : result response :=
    match outputData with
    | None => Raise (UnboundLocalError "outputData")
    | Some d =>
        Ok {| statusCode := statusCode;
              body := json_dumps (JObj d);
              headers := cors_headers |}
    end in
  ((t ++ t_except)%list, finally).

(** The response of line 19. *)
Definition bad_request : response :=
  {| statusCode := 400;
     body := json_dumps (JStr required_fields_error);
     headers := cors_headers |}.

(** [handler(event, context)]: lines 14 to 23, then [convert]. *)
Definition handler (w : world) (event : json) (context : LambdaContext)
  : M response :=
  event_body <- lift (py_getitem event (Key "body")) ;;
  _ <- call (Print [JStr "Req Body -"; event_body]) (Ok tt) ;;
  reqBody <- lift (loads w event_body) ;;
  missing <- lift (missing_required reqBody) ;;
  if (missing : bool) then ret bad_request else convert w reqBody.

(** A field of the [dict] a response body encodes. *)
Definition response_field (r : response) (name : string) : option json :=
  match body r with
  | json_dumps (JObj d) => dict_get name d
  | json_dumps _ => None
  end.

(** ** Values the properties speak about *)

(** The [dict] a success response encodes, from the request and the clock. *)
Definition success_output (w : world) (url bucket : string) (region uid : json)
  : dict :=
  let key :=
    video_S3Key (py_str w uid) (currentTime_in_string w) (sourceS3Basename url) in
  [("final_video_url", JStr (destinationS3 bucket ++ key));
   ("thumbnail_url", JStr "");
   ("video_s3_key", JStr key);
   ("video_s3_path", JStr (destinationS3 bucket ++ key));
   ("final_video_hls_url",
    JStr (final_video_hls_url bucket (py_str w region) key))].

(** A request body that passes validation and the type checks of lines 31
    and 32. *)
Definition valid_request (reqBody : json) (url bucket : string) (region uid : json)
  : Prop :=
  py_getitem reqBody (Key "video_source_url") = Ok (JStr url) /\
  py_getitem reqBody (Key "destination_bucket") = Ok (JStr bucket) /\
  py_getitem reqBody (Key "destination_bucket_region") = Ok region /\
  py_getitem reqBody (Key "uniqueId") = Ok uid.


(** ** Cutting a string at a character *)

(** [s] cut at its last occurrence of [c]: what precedes it and what
    follows it; [None] when [c] does not occur. *)
Fixpoint split_last (c : ascii) (s : string) : option (string * string) :=
  match s with
  | EmptyString => None
  | String a r =>
      match split_last c r with
      | Some (before, after) => Some (String a before, after)
      | None => if Ascii.eqb a c then Some (EmptyString, r) else None
      end
  end.


(** What precedes the first [c] of [s]; all of [s] when [c] does not
    occur. *)
Fixpoint before_first (c : ascii) (s : string) : string :=
  match s with
  | EmptyString => EmptyString
  | String a r =>
      if Ascii.eqb a c then EmptyString else String a (before_first c r)
  end.

(** [s] from its first [c] on; empty when [c] does not occur. *)
Fixpoint from_first (c : ascii) (s : string) : string :=
  match s with
  | EmptyString => EmptyString
  | String a r => if Ascii.eqb a c then s else from_first c r
  end.

(** What follows the first [://] of [s]; [None] when there is none. *)
Fixpoint after_scheme (s : string) : option string :=
  match s with
  | EmptyString => None
  | String _ r =>
      if String.prefix "://" s then Some (drop 3 s) else after_scheme r
  end.

(** ** The specification's words for the base name *)

(** Written from the sentence of the specification, the last path segment
    of the URL with its extension stripped, for comparison with
    [sourceS3Basename], which follows the source.  A URL reads
    [scheme://authority/path?query#fragment]. *)

(** The path of a URL: the fragment and the query are cut off, then the
    scheme and the authority; the path starts at the first [/] after the
    authority and is empty when there is none.  A text without [://] is a
    path already. *)
Definition spec_url_path (url : string) : string :=
  let hierarchical := before_first "?" (before_first "#" url) in
  match after_scheme hierarchical with
  | Some authority_and_path => from_first slash authority_and_path
  | None => hierarchical
  end.

(** The segments of a path are separated by [/]; the last one follows the
    last [/]. *)
Definition spec_last_path_segment (url : string) : string :=
  match split_last slash (spec_url_path url) with
  | Some (_, segment) => segment
  | None => spec_url_path url
  end.

(** A name without its extension, the extension being the last dot of the
    name and what follows it. *)
Definition spec_strip_extension (name : string) : string :=
  match split_last dot name with
  | Some (stem, _) => stem
  | None => name
  end.

Definition spec_base_name (url : string) : string :=
  spec_strip_extension (spec_last_path_segment url).

(** ** The specification's words for a missing field *)

(** A JSON body has fields when it is an object; [true] when the body
    lacks at least one of the four required fields. *)
Definition spec_missing_field (reqBody : json) : bool :=
  match reqBody with
  | JObj members =>
      negb (dict_mem "video_source_url" members
            && dict_mem "destination_bucket" members
            && dict_mem "destination_bucket_region" members
            && dict_mem "uniqueId" members)
  | _ => true
  end.

(** ** Example data *)

(** The deepest nesting of brackets and braces in [s], outside its
    strings.  At the head of [s], [depth] containers are open and
    [deepest] is the most that were; [in_string] and [escaped] say
    whether the head is inside a string and follows a backslash. *)
Fixpoint nesting_from (in_string escaped : bool) (depth deepest : nat)
    (s : string) : nat :=
  match s with
  | EmptyString => deepest
  | String c r =>
      if in_string then
        if escaped then nesting_from true false depth deepest r
        else if Ascii.eqb c backslash then nesting_from true true depth deepest r
        else if Ascii.eqb c dquote then nesting_from false false depth deepest r
        else nesting_from true false depth deepest r
      else if Ascii.eqb c dquote then nesting_from true false depth deepest r
      else if Ascii.eqb c "[" || Ascii.eqb c "{"
      then nesting_from false false (S depth) (Nat.max deepest (S depth)) r
      else if Ascii.eqb c "]" || Ascii.eqb c "}"
      then nesting_from false false (Nat.pred depth) deepest r
      else nesting_from false false depth deepest r
  end.

Definition nesting (s : string) : nat := nesting_from false false 0 0 s.


(** A JSON text written with ['] where JSON has the double quote. *)
Fixpoint json_text_of (s : string) : string :=
  match s with
  | EmptyString => EmptyString
  | String c r => String (if Ascii.eqb c "'" then dquote else c) (json_text_of r)
  end.

Definition example_template : string :=
  json_text_of
    "{'Inputs': [{'FileInput': ''}], 'OutputGroups': [{'Name': 'HLS', 'OutputGroupSettings': {'Type': 'HLS_GROUP_SETTINGS', 'HlsGroupSettings': {'SegmentLength': 10, 'Destination': ''}}}]}".

Definition example_endpoints : json :=
  JObj [("Endpoints",
         JArr [JObj [("Url", JStr "https://abcd1234.mediaconvert.us-west-2.amazonaws.com")]])].

Definition example_clock : datetime :=
  {| year := 2024; month := 1; day := 1; hour := 0; minute := 0; second := 0;
     microsecond := 0 |}.

(** A world in which every outside call succeeds.  Its interpreter has the
    default digit limit and a stack that holds 900 nested containers. *)
Definition example_world : world :=
  {| now := example_clock;
     environ := [("MediaConvertRole", "arn:aws:iam::123456789012:role/MediaConvert");
                 ("AWS_DEFAULT_REGION", "us-west-2")];
     read_file := fun path =>
       if String.eqb path "job.json" then Ok example_template
       else Raise (FileNotFoundError path);
     repr_of := fun _ => "?";
     int_max_str_digits := 4300;
     loads_recursion_error := fun s => Nat.ltb 900 (nesting s);
     load_recursion_error := fun s => Nat.ltb 899 (nesting s);
     boto3_client := fun _ => Ok tt;
     describe_endpoints := fun _ => Ok example_endpoints;
     create_job := fun _ _ _ _ => Ok (JObj [("Job", JObj [])]) |}.

(** The same world with the submission call failing. *)
Definition failing_world : world :=
  {| now := now example_world;
     environ := environ example_world;
     read_file := read_file example_world;
     repr_of := repr_of example_world;
     int_max_str_digits := int_max_str_digits example_world;
     loads_recursion_error := loads_recursion_error example_world;
     load_recursion_error := load_recursion_error example_world;
     boto3_client := boto3_client example_world;
     describe_endpoints := describe_endpoints example_world;
     create_job := fun _ _ _ _ => Raise (ClientError "create_job failed") |}.

Definition event_with_body (text : string) : json := JObj [("body", JStr text)].

Definition example_request : string :=
  json_text_of
    "{'video_source_url': 'https://example.com/in/clip.mp4', 'destination_bucket': 'my-bucket', 'destination_bucket_region': 'us-east-1', 'uniqueId': 42}".

Definition example_event : json := event_with_body example_request.

Definition example_response : response :=
  {| statusCode := 200;
     body := json_dumps
       (JObj [("final_video_url",
               JStr "s3://my-bucket/public/42/20240101000000/HLS/clip");
              ("thumbnail_url", JStr "");
              ("video_s3_key", JStr "/public/42/20240101000000/HLS/clip");
              ("video_s3_path",
               JStr "s3://my-bucket/public/42/20240101000000/HLS/clip");
              ("final_video_hls_url",
               JStr "https://my-bucket.s3.us-east-1.amazonaws.com/public/42/20240101000000/HLS/clip.m3u8")]);
     headers := cors_headers |}.

Definition example_trace : list effect :=
  fst (handler example_world example_event lambda_context).

(** The example world one second later. *)
Definition later_world : world :=
  {| now := {| year := 2024; month := 1; day := 1; hour := 0; minute := 0;
               second := 1; microsecond := 0 |};
     environ := environ example_world;
     read_file := read_file example_world;
     repr_of := repr_of example_world;
     int_max_str_digits := int_max_str_digits example_world;
     loads_recursion_error := loads_recursion_error example_world;
     load_recursion_error := load_recursion_error example_world;
     boto3_client := boto3_client example_world;
     describe_endpoints := describe_endpoints example_world;
     create_job := create_job example_world |}.

Definition later_response : response :=
  {| statusCode := 200;
     body := json_dumps
       (JObj [("final_video_url",
               JStr "s3://my-bucket/public/42/20240101000001/HLS/clip");
              ("thumbnail_url", JStr "");
              ("video_s3_key", JStr "/public/42/20240101000001/HLS/clip");
              ("video_s3_path",
               JStr "s3://my-bucket/public/42/20240101000001/HLS/clip");
              ("final_video_hls_url",
               JStr "https://my-bucket.s3.us-east-1.amazonaws.com/public/42/20240101000001/HLS/clip.m3u8")]);
     headers := cors_headers |}.

Definition later_trace : list effect :=
  fst (handler later_world example_event lambda_context).

Definition example_request_string_id : string :=
  json_text_of
    "{'video_source_url': 'https://example.com/in/clip.mp4', 'destination_bucket': 'my-bucket', 'destination_bucket_region': 'us-east-1', 'uniqueId': '42'}".

(** [c * n] *)
Fixpoint replicate (c : ascii) (n : nat) : string :=
  match n with
  | O => EmptyString
  | S n' => String c (replicate c n')
  end.

(** An object whose [uniqueId] is an integer literal of 4301 digits. *)
Definition long_integer_body : string :=
  json_text_of "{'uniqueId': " ++ replicate "1" 4301 ++ "}".

(** 901 opening brackets. *)
Definition deep_body : string := replicate "[" 901.

(** ** Further values the properties speak about *)

(** The JSON values on which [in] is not defined: [None], [bool], [int]
    and [float]. *)
Definition is_scalar (v : json) : bool :=
  match v with
  | JNull | JBool _ | JInt _ | JFloat _ => true
  | JStr _ | JArr _ | JObj _ => false
  end.

Definition is_create_job (e : effect) : bool :=
  match e with
  | CreateJob _ _ _ _ => true
  | _ => false
  end.

(** The calls that leave the process: the file, the clients, the service. *)
Definition is_outside_call (e : effect) : bool :=
  match e with
  | Print _ | PrintException _ => false
  | Open _ | Boto3Client _ | DescribeEndpoints _ | CreateJob _ _ _ _ => true
  end.

(** [c] occurs in [s]. *)
Fixpoint occurs (c : ascii) (s : string) : bool :=
  match s with
  | EmptyString => false
  | String a r => Ascii.eqb a c || occurs c r
  end.

(** The effects of an invocation up to the client that submits the job. *)
Definition calls_before_submission (text aws_region : string) (endpoint : json)
  : list effect :=
  [Print [JStr "Req Body -"; JStr text];
   Open "job.json";
   Boto3Client (discovery_client aws_region);
   DescribeEndpoints (discovery_client aws_region);
   Boto3Client (job_client aws_region endpoint)].

(** The outside calls of a complete invocation, in the order of the source. *)
Definition outside_calls (aws_region : string) (endpoint : json) (role : string)
    (meta settings : json) : list effect :=
  [Open "job.json";
   Boto3Client (discovery_client aws_region);
   DescribeEndpoints (discovery_client aws_region);
   Boto3Client (job_client aws_region endpoint);
   CreateJob (job_client aws_region endpoint) role meta settings].

(** The fields of the example request. *)
Definition example_members : dict :=
  [("video_source_url", JStr "https://example.com/in/clip.mp4");
   ("destination_bucket", JStr "my-bucket");
   ("destination_bucket_region", JStr "us-east-1");
   ("uniqueId", JInt 42)].

(** The example world with an environment that lacks both variables, and
    with one that lacks the region only. *)
Definition world_with_environ (env : list (string * string)) : world :=
  {| now := now example_world;
     environ := env;
     read_file := read_file example_world;
     repr_of := repr_of example_world;
     int_max_str_digits := int_max_str_digits example_world;
     loads_recursion_error := loads_recursion_error example_world;
     load_recursion_error := load_recursion_error example_world;
     boto3_client := boto3_client example_world;
     describe_endpoints := describe_endpoints example_world;
     create_job := create_job example_world |}.

(** The example world with another template file. *)
Definition world_with_template (content : string) : world :=
  {| now := now example_world;
     environ := environ example_world;
     read_file := fun _ => Ok content;
     repr_of := repr_of example_world;
     int_max_str_digits := int_max_str_digits example_world;
     loads_recursion_error := loads_recursion_error example_world;
     load_recursion_error := load_recursion_error example_world;
     boto3_client := boto3_client example_world;
     describe_endpoints := describe_endpoints example_world;
     create_job := create_job example_world |}.

Definition example_request_numeric_source : string :=
  json_text_of
    "{'video_source_url': 7, 'destination_bucket': 'my-bucket', 'destination_bucket_region': 'us-east-1', 'uniqueId': 42}".

(** The [try] body after the second client is built: lines 59 to 70. *)
Definition fill_and_submit (w : world) (template : json) (url bucket : string)
    (uid : json) (role aws_region : string) (endpoint : json)
  : M (json * string) :=
  jobSettings <- lift (assign_at template inputs_path "FileInput" (JStr url)) ;;
  let key :=
    video_S3Key (py_str w uid) (currentTime_in_string w) (sourceS3Basename url) in
  jobSettings <- lift (assign_at jobSettings hls_group_path "Destination"
                         (JStr (destinationS3 bucket ++ key))) ;;
  job <- call (CreateJob (job_client aws_region endpoint) role
                 (JObj [("assetID", JStr (py_str w uid))]) jobSettings)
              (create_job w (job_client aws_region endpoint) role
                 (JObj [("assetID", JStr (py_str w uid))]) jobSettings) ;;
  ret (jobSettings, key).

(** The exceptions of the statements that precede the [try]: a missing
    key, a value of the wrong type, and the three exceptions of
    [json.loads] (see [decoder_error]). *)
Definition raised_before_try (e : exn) : bool :=
  match e with
  | KeyError _ | TypeError
  | JSONDecodeError | ValueError | RecursionError => true
  | _ => false
  end.

(** The example world later within the same second. *)
Definition same_second_world : world :=
  {| now := {| year := 2024; month := 1; day := 1; hour := 0; minute := 0;
               second := 0; microsecond := 999999 |};
     environ := environ example_world;
     read_file := read_file example_world;
     repr_of := repr_of example_world;
     int_max_str_digits := int_max_str_digits example_world;
     loads_recursion_error := loads_recursion_error example_world;
     load_recursion_error := load_recursion_error example_world;
     boto3_client := boto3_client example_world;
     describe_endpoints := describe_endpoints example_world;
     create_job := create_job example_world |}.


(** * Properties *)

(** ** The computation monad *)

Lemma bind_ok_inv {A B : Type} (m : M A) (f : A -> M B) (t : list effect) (b : B) :
  bind m f = (t, Ok b) ->
  exists t1 a t2, m = (t1, Ok a) /\ f a = (t2, Ok b) /\ t = (t1 ++ t2)%list.
Proof.
  unfold bind. destruct m as [t1 [a | e]].
  - destruct (f a) as [t2 r] eqn:Hf. intros H. injection H as <- ->.
    exists t1, a, t2. auto.
  - discriminate.
Qed.

Lemma lift_ok_inv {A : Type} (r : result A) (t : list effect) (a : A) :
  lift r = (t, Ok a) -> r = Ok a /\ t = [].
Proof. unfold lift. intros H. injection H as <- ->. auto. Qed.

Lemma call_ok_inv {A : Type} (e : effect) (r : result A) (t : list effect) (a : A) :
  call e r = (t, Ok a) -> r = Ok a /\ t = [e].
Proof. unfold call. intros H. injection H as <- ->. auto. Qed.

Lemma bind_lift_ok {A B : Type} (r : result A) (a : A) (f : A -> M B) :
  r = Ok a -> bind (lift r) f = f a.
Proof. intros ->. unfold bind, lift. destruct (f a). reflexivity. Qed.

Lemma bind_lift_raise {A B : Type} (r : result A) (e : exn) (f : A -> M B) :
  r = Raise e -> bind (lift r) f = ([], Raise e).
Proof. intros ->. reflexivity. Qed.

Lemma bind_call_ok {A B : Type} (ev : effect) (r : result A) (a : A) (f : A -> M B) :
  r = Ok a -> bind (call ev r) f = (ev :: fst (f a), snd (f a)).
Proof. intros ->. unfold bind, call. destruct (f a). reflexivity. Qed.

(** Takes a hypothesis [H : m = (t, Ok v)] for a chain of binds apart. *)
Ltac bind_inv H :=
  let t1 := fresh "t" in
  let a := fresh "a" in
  let t2 := fresh "t" in
  let H1 := fresh "Hstep" in
  let Ht := fresh "Htrace" in
  apply bind_ok_inv in H; destruct H as (t1 & a & t2 & H1 & H & Ht);
  first [ apply lift_ok_inv in H1; destruct H1 as [H1 ->]
        | apply call_ok_inv in H1; destruct H1 as [H1 ->] ];
  cbn [app] in Ht; subst.

(** ** Dictionaries *)

Lemma dict_get_set_same (k : string) (v : json) (d : dict) :
  dict_get k (dict_set k v d) = Some v.
Proof.
  induction d as [| [k' v'] d IH]; cbn.
  - now rewrite String.eqb_refl.
  - destruct (String.eqb k k') eqn:E; cbn; rewrite ?String.eqb_refl, ?E; auto.
Qed.

Lemma dict_get_set_other (k k' : string) (v : json) (d : dict) :
  k <> k' -> dict_get k' (dict_set k v d) = dict_get k' d.
Proof.
  intros Hne. induction d as [| [k0 v0] d IH]; cbn.
  - destruct (String.eqb k' k) eqn:E; auto.
    apply String.eqb_eq in E. congruence.
  - destruct (String.eqb k k0) eqn:E; cbn.
    + apply String.eqb_eq in E. subst k0.
      destruct (String.eqb k' k) eqn:E'; auto.
      apply String.eqb_eq in E'. congruence.
    + now rewrite IH.
Qed.

Lemma nth_error_list_set {A : Type} (i : nat) (x a : A) (l : list A) :
  nth_error l i = Some a -> nth_error (list_set i x l) i = Some x.
Proof.
  revert l. induction i as [| i IH]; intros [| b l]; cbn; try discriminate; auto.
Qed.

(** ** Nested assignment *)

(** Reading a subscript back after the child under it was replaced. *)
Lemma py_getitem_replace_child (obj child child' : json) (sub : subscript) :
  py_getitem obj sub = Ok child ->
  (forall s, obj <> JStr s) ->
  py_getitem (replace_child obj sub child') sub = Ok child'.
Proof.
  intros Hget Hstr. destruct obj, sub; cbn in *; try discriminate.
  - exfalso. eapply Hstr. reflexivity.
  - destruct (nth_error items i) eqn:E; try discriminate.
    now rewrite (nth_error_list_set _ _ _ _ E).
  - now rewrite dict_get_set_same.
Qed.

(** No assignment goes through a [str]. *)
Lemma assign_at_str (s : string) (path : list subscript) (k : string) (x : json) :
  exists e, assign_at (JStr s) path k x = Raise e.
Proof.
  revert s. induction path as [| sub path IH]; intros s; cbn.
  - eauto.
  - destruct sub as [k' | i]; cbn; eauto.
    destruct (char_at i s) as [| c0 s0] eqn:E; cbn; eauto.
    destruct (IH (String c0 s0)) as [e ->]. cbn. eauto.
Qed.

(** What was assigned is what is read back along the same path. *)
Lemma assign_at_read_back (path : list subscript) (k : string) (x : json) :
  forall obj obj',
    assign_at obj path k x = Ok obj' ->
    py_getitem_path obj' (path ++ [Key k])%list = Ok x.
Proof.
  induction path as [| sub path IH]; intros obj obj' H; cbn in *.
  - destruct obj; cbn in H; try discriminate.
    injection H as <-. cbn. now rewrite dict_get_set_same.
  - destruct (py_getitem obj sub) as [child | e] eqn:Hget; cbn in H; try discriminate.
    destruct (assign_at child path k x) as [child' | e] eqn:Hch; cbn in H;
      try discriminate.
    injection H as <-.
    assert (Hns : forall s, obj <> JStr s).
    { intros s ->. destruct sub as [k' | i]; cbn in Hget; try discriminate.
      destruct (char_at i s) as [| c0 s0] eqn:E; try discriminate.
      injection Hget as <-.
      destruct (assign_at_str (String c0 s0) path k x) as [e He]. congruence. }
    rewrite (py_getitem_replace_child _ _ child' _ Hget Hns). cbn.
    eapply IH; eauto.
Qed.

(** ** The [try] block *)

(** When lines 46 to 70 complete, they made exactly five outside calls, the
    last one being [create_job] on the filled template, and the template
    holds the destination at the HLS group. *)
Lemma submit_job_ok (w : world) (url uid dest base ts role region : string)
    (meta : json) (t : list effect) (js : json) (key : string) :
  submit_job w url uid dest base ts role region meta = (t, Ok (js, key)) ->
  key = video_S3Key uid ts base /\
  py_getitem_path js (hls_group_path ++ [Key "Destination"])%list
    = Ok (JStr (dest ++ key)) /\
  exists endpoint,
    t = [Open "job.json";
         Boto3Client (discovery_client region);
         DescribeEndpoints (discovery_client region);
         Boto3Client (job_client region endpoint);
         CreateJob (job_client region endpoint) role meta js].
Proof.
  unfold submit_job. intros H.
  do 9 bind_inv H.
  unfold ret in H. injection H as <- <- <-.
  repeat split.
  - eapply assign_at_read_back; eauto.
  - eexists. reflexivity.
Qed.

(** The [try] body ends in one of two ways: it raised with [outputData]
    still unbound, or it completed with [outputData] fully built. *)
Lemma try_body_cases (w : world) (url uid dest bucket : string) (region_v : json)
    (base ts role region : string) (meta : json)
    (t : list effect) (od : option dict) (r : result unit) :
  try_body w url uid dest bucket region_v base ts role region meta = (t, od, r) ->
  (exists e,
      submit_job w url uid dest base ts role region meta = (t, Raise e) /\
      od = None /\ r = Raise e) \/
  (exists js,
      submit_job w url uid dest base ts role region meta
        = (t, Ok (js, video_S3Key uid ts base)) /\
      r = Ok tt /\
      od = Some
             [("final_video_url", JStr (dest ++ video_S3Key uid ts base));
              ("thumbnail_url", JStr "");
              ("video_s3_key", JStr (video_S3Key uid ts base));
              ("video_s3_path", JStr (dest ++ video_S3Key uid ts base));
              ("final_video_hls_url",
               JStr (final_video_hls_url bucket (py_str w region_v)
                       (video_S3Key uid ts base)))]).
Proof.
  unfold try_body.
  destruct (submit_job w url uid dest base ts role region meta)
    as [t0 [[js key] | e]] eqn:Hs.
  - destruct (submit_job_ok _ _ _ _ _ _ _ _ _ _ _ _ Hs) as (-> & Hread & _).
    unfold build_output. rewrite Hread. cbn.
    intros H. injection H as <- <- <-. right. exists js. auto.
  - intros H. injection H as <- <- <-. left. exists e. auto.
Qed.

(** ** What [convert] and [handler] can return *)

Lemma as_str_ok (v : json) (s : string) : as_str v = Ok s -> v = JStr s.
Proof. destruct v; cbn; congruence. Qed.

(** [convert] runs the [try] block once the request and the environment
    are read. *)
Lemma convert_unfold (w : world) (reqBody : json) (url bucket : string)
    (region uid : json) (role aws_region : string) :
  valid_request reqBody url bucket region uid ->
  environ_get (environ w) "MediaConvertRole" = Ok role ->
  environ_get (environ w) "AWS_DEFAULT_REGION" = Ok aws_region ->
  convert w reqBody =
    let '(t, outputData, r) :=
      try_body w url (py_str w uid) (destinationS3 bucket) bucket region
        (sourceS3Basename url) (currentTime_in_string w) role aws_region
        (JObj [("assetID", JStr (py_str w uid))]) in
    ((t ++ match r with Ok _ => [] | Raise e => [PrintException e] end)%list,
     match outputData with
     | None => Raise (UnboundLocalError "outputData")
     | Some d =>
         Ok {| statusCode := match r with Ok _ => 200%Z | Raise _ => 500%Z end;
               body := json_dumps (JObj d);
               headers := cors_headers |}
     end).
Proof.
  intros (Hu & Hb & Hr & Hi) Hrole Hreg. unfold convert.
  rewrite (bind_lift_ok _ _ _ Hu), (bind_lift_ok _ _ _ Hb),
    (bind_lift_ok _ _ _ Hr), (bind_lift_ok _ _ _ Hi).
  cbn [as_str]. rewrite (bind_lift_ok _ url) by reflexivity.
  rewrite (bind_lift_ok _ bucket) by reflexivity.
  rewrite (bind_lift_ok _ _ _ Hrole), (bind_lift_ok _ _ _ Hreg).
  destruct (try_body _ _ _ _ _ _ _ _ _ _ _) as [[t od] r].
  destruct r; reflexivity.
Qed.

(** Every response [convert] returns is the success response, and it comes
    after a [create_job] call on a template holding the reported path. *)
Lemma convert_returns (w : world) (reqBody : json) (t : list effect) (resp : response) :
  convert w reqBody = (t, Ok resp) ->
  exists url bucket region uid,
    valid_request reqBody url bucket region uid /\
    resp = {| statusCode := 200;
              body := json_dumps (JObj (success_output w url bucket region uid));
              headers := cors_headers |} /\
    exists c role meta settings t0,
      t = (t0 ++ [CreateJob c role meta settings])%list /\
      py_getitem_path settings (hls_group_path ++ [Key "Destination"])%list
        = Ok (JStr (destinationS3 bucket
                      ++ video_S3Key (py_str w uid) (currentTime_in_string w)
                           (sourceS3Basename url))).
Proof.
  intros H. pose proof H as H0. unfold convert in H.
  do 8 bind_inv H.
  apply as_str_ok in Hstep3, Hstep4. subst.
  match goal with
  | Hu : py_getitem _ (Key "video_source_url") = Ok (JStr ?u),
    Hb : py_getitem _ (Key "destination_bucket") = Ok (JStr ?b),
    Hr : py_getitem _ (Key "destination_bucket_region") = Ok ?r,
    Hi : py_getitem _ (Key "uniqueId") = Ok ?i |- _ =>
      exists u, b, r, i; split; [ repeat split; assumption | ]
  end.
  destruct (try_body _ _ _ _ _ _ _ _ _ _ _) as [[t1 od] r] eqn:Ht.
  apply try_body_cases in Ht. destruct Ht as [(e & _ & -> & ->) | (js & Hs & -> & ->)].
  - discriminate.
  - injection H as <- <-. split; [reflexivity |].
    apply submit_job_ok in Hs. destruct Hs as (_ & Hread & endpoint & ->).
    do 4 eexists. eexists [_; _; _; _]. split; [reflexivity | exact Hread].
Qed.

Lemma loads_ok (w : world) (v reqBody : json) :
  loads w v = Ok reqBody -> exists text, v = JStr text /\ json_loads w text = Ok reqBody.
Proof. destruct v; cbn; try discriminate. eauto. Qed.

(** A response comes either from the validation branch, before anything
    but the [print], or from [convert]. *)
Lemma handler_returns (w : world) (event : json) (context : LambdaContext)
    (t : list effect) (resp : response) :
  handler w event context = (t, Ok resp) ->
  exists text reqBody,
    py_getitem event (Key "body") = Ok (JStr text) /\
    json_loads w text = Ok reqBody /\
    ((missing_required reqBody = Ok true /\ resp = bad_request /\
      t = [Print [JStr "Req Body -"; JStr text]]) \/
     (missing_required reqBody = Ok false /\
      exists t', convert w reqBody = (t', Ok resp) /\
                 t = Print [JStr "Req Body -"; JStr text] :: t')).
Proof.
  unfold handler. intros H. do 4 bind_inv H.
  apply loads_ok in Hstep1. destruct Hstep1 as (text & -> & Hl).
  exists text. eexists. split; [eassumption |]. split; [eassumption |].
  match goal with Hm : missing_required _ = Ok ?m |- _ => destruct m end.
  - left. unfold ret in H. injection H as <- <-. auto.
  - right. split; [assumption |]. eexists. split; [eassumption | reflexivity].
Qed.

(** The validation condition on a [dict]: true as soon as one of the four
    keys is absent. *)
Lemma missing_required_dict (members : dict) :
  missing_required (JObj members) =
    Ok (negb (dict_mem "video_source_url" members
              && dict_mem "destination_bucket" members
              && dict_mem "destination_bucket_region" members
              && dict_mem "uniqueId" members)).
Proof.
  unfold missing_required, py_not_in, py_in. cbn.
  destruct (dict_mem "video_source_url" members),
    (dict_mem "destination_bucket" members),
    (dict_mem "destination_bucket_region" members),
    (dict_mem "uniqueId" members); reflexivity.
Qed.

(** ** C1: missing fields *)


(** C1 as stated fails: the body [12] is valid JSON and has none of the
    four fields, and the handler raises [TypeError] at the first [not in]
    instead of returning the 400 response. *)
Lemma missing_field_body_without_response :
  ~ (forall (w : world) (event : json) (context : LambdaContext)
            (text : string) (reqBody : json),
        py_getitem event (Key "body") = Ok (JStr text) ->
        json_loads w text = Ok reqBody ->
        spec_missing_field reqBody = true ->
        exists t resp,
          handler w event context = (t, Ok resp) /\
          statusCode resp = 400%Z).
Proof.
  intros H.
  destruct (H example_world (event_with_body "12") lambda_context "12"
              (JInt 12)) as (t & resp & Hh & _).
  - reflexivity.
  - vm_compute. reflexivity.
  - reflexivity.
  - vm_compute in Hh. discriminate.
Qed.



(** ** Responses *)

(** The two shapes of a returned response. *)
Lemma handler_response_cases (w : world) (event : json) (context : LambdaContext)
    (t : list effect) (resp : response) :
  handler w event context = (t, Ok resp) ->
  resp = bad_request \/
  exists text reqBody url bucket region uid,
    py_getitem event (Key "body") = Ok (JStr text) /\
    json_loads w text = Ok reqBody /\
    missing_required reqBody = Ok false /\
    valid_request reqBody url bucket region uid /\
    resp = {| statusCode := 200;
              body := json_dumps (JObj (success_output w url bucket region uid));
              headers := cors_headers |}.
Proof.
  intros H. apply handler_returns in H.
  destruct H as (text & reqBody & Hb & Hl & [(_ & -> & _) | (Hm & t' & Hc & _)]).
  - left. reflexivity.
  - right. apply convert_returns in Hc.
    destruct Hc as (url & bucket & region & uid & Hv & -> & _).
    exists text, reqBody, url, bucket, region, uid. auto.
Qed.

(** A response with status 200 is a success response. *)
Lemma handler_success_response (w : world) (event : json) (context : LambdaContext)
    (t : list effect) (resp : response) :
  handler w event context = (t, Ok resp) ->
  statusCode resp = 200%Z ->
  exists text reqBody url bucket region uid,
    py_getitem event (Key "body") = Ok (JStr text) /\
    json_loads w text = Ok reqBody /\
    valid_request reqBody url bucket region uid /\
    resp = {| statusCode := 200;
              body := json_dumps (JObj (success_output w url bucket region uid));
              headers := cors_headers |}.
Proof.
  intros H Hs. apply handler_response_cases in H.
  destruct H as [-> | (text & reqBody & url & bucket & region & uid & H)].
  - discriminate.
  - exists text, reqBody, url, bucket, region, uid. tauto.
Qed.

(** ** C8: headers *)

(** C8. Every response the handler returns, the 400 validation response
    and the success response alike, carries exactly the two headers
    [Content-Type: application/json] and [Access-Control-Allow-Origin: *]. *)
Theorem handler_headers (w : world) (event : json) (context : LambdaContext)
    (t : list effect) (resp : response) :
  handler w event context = (t, Ok resp) ->
  headers resp = [("Content-Type", "application/json");
                  ("Access-Control-Allow-Origin", "*")].
Proof.
  intros H. apply handler_response_cases in H.
  destruct H as [-> | (text & reqBody & url & bucket & region & uid & H)].
  - reflexivity.
  - destruct H as (_ & _ & _ & _ & ->). reflexivity.
Qed.

Lemma handler_headers_witness :
  headers bad_request = [("Content-Type", "application/json");
                         ("Access-Control-Allow-Origin", "*")].
Proof.
  apply (handler_headers example_world (event_with_body "{}") lambda_context
           [Print [JStr "Req Body -"; JStr "{}"]] bad_request).
  vm_compute. reflexivity.
Defined.

(** ** C6: the thumbnail placeholder *)

(** C6. In every response with status 200 the field [thumbnail_url] is the
    empty string. *)
Theorem thumbnail_url_empty (w : world) (event : json) (context : LambdaContext)
    (t : list effect) (resp : response) :
  handler w event context = (t, Ok resp) ->
  statusCode resp = 200%Z ->
  response_field resp "thumbnail_url" = Some (JStr "").
Proof.
  intros H Hs. destruct (handler_success_response _ _ _ _ _ H Hs)
    as (text & reqBody & url & bucket & region & uid & _ & _ & _ & ->).
  reflexivity.
Qed.

Lemma thumbnail_url_empty_witness :
  response_field example_response "thumbnail_url" = Some (JStr "").
Proof.
  apply (thumbnail_url_empty example_world example_event lambda_context
           example_trace example_response).
  - vm_compute. reflexivity.
  - reflexivity.
Defined.

(** ** Strings *)

Lemma str_app_length (a b : string) :
  String.length (a ++ b) = String.length a + String.length b.
Proof. induction a as [| c a IH]; cbn; auto. Qed.

Lemma str_app_assoc (a b c : string) : (a ++ b) ++ c = a ++ (b ++ c).
Proof. induction a as [| x a IH]; cbn; congruence. Qed.

Lemma str_app_nil_r (a : string) : a ++ "" = a.
Proof. induction a as [| x a IH]; cbn; congruence. Qed.

Lemma str_app_inv_head (p a b : string) : p ++ a = p ++ b -> a = b.
Proof. induction p as [| x p IH]; cbn; intros H; auto. injection H. auto. Qed.

Lemma str_app_inv_tail (s a b : string) : a ++ s = b ++ s -> a = b.
Proof.
  revert b. induction a as [| x a IH]; intros [| y b] H; cbn in H.
  - reflexivity.
  - apply (f_equal String.length) in H. cbn in H. rewrite str_app_length in H. lia.
  - apply (f_equal String.length) in H. cbn in H. rewrite str_app_length in H. lia.
  - injection H as -> H. f_equal. auto.
Qed.

(** ** The timestamp *)


Lemma nat_of_digit (n : N) : nat_of_ascii (digit n) = N.to_nat (48 + n mod 10).
Proof.
  unfold digit, nat_of_ascii. rewrite N_ascii_embedding; auto.
  assert (n mod 10 < 10)%N by (apply N.mod_lt; discriminate). lia.
Qed.


Lemma digit_value_digit (n : N) : digit_value (digit n) = Z.of_N (n mod 10).
Proof.
  unfold digit_value. rewrite nat_of_digit.
  set (m := (n mod 10)%N). clearbody m. lia.
Qed.

Lemma zero_padded_length (width : nat) (n : N) :
  String.length (zero_padded width n) = width.
Proof.
  revert n. induction width as [| width IH]; intros n; cbn; auto.
  rewrite str_app_length, IH. cbn. lia.
Qed.


Lemma Z_of_digits_app (acc : Z) (a b : string) :
  Z_of_digits acc (a ++ b) = Z_of_digits (Z_of_digits acc a) b.
Proof. revert acc. induction a as [| c a IH]; intros acc; cbn; auto. Qed.

(** Read back as a decimal number, a padded field is the number itself. *)
Lemma Z_of_digits_padded (width : nat) (n : N) (acc : Z) :
  (n < 10 ^ N.of_nat width)%N ->
  Z_of_digits acc (zero_padded width n)
    = (acc * 10 ^ Z.of_nat width + Z.of_N n)%Z.
Proof.
  revert n acc. induction width as [| width IH]; intros n acc Hn.
  - cbn in *. lia.
  - cbn [zero_padded]. rewrite Z_of_digits_app. cbn [Z_of_digits].
    rewrite digit_value_digit.
    assert (Hpow : (10 ^ N.of_nat (S width) = 10 * 10 ^ N.of_nat width)%N).
    { rewrite Nat2N.inj_succ. apply N.pow_succ_r'. }
    assert (Hpz : (10 ^ Z.of_nat (S width) = 10 * 10 ^ Z.of_nat width)%Z).
    { rewrite Nat2Z.inj_succ. apply Z.pow_succ_r. lia. }
    rewrite IH.
    + rewrite Hpz. rewrite N2Z.inj_div.
      pose proof (Z.div_mod (Z.of_N n) 10 ltac:(lia)) as Hdm.
      rewrite N2Z.inj_mod. change (Z.of_N 10) with 10%Z. lia.
    + rewrite Hpow in Hn. apply N.Div0.div_lt_upper_bound. lia.
Qed.

(** The timestamp is the six fields of the clock side by side. *)
Lemma currentTime_in_string_fields (w : world) :
  currentTime_in_string w =
    zero_padded 4 (year (now w)) ++ zero_padded 2 (month (now w)) ++
    zero_padded 2 (day (now w)) ++ zero_padded 2 (hour (now w)) ++
    zero_padded 2 (minute (now w)) ++ zero_padded 2 (second (now w)).
Proof.
  unfold currentTime_in_string. cbn [strftime Ascii.eqb Bool.eqb].
  now rewrite str_app_nil_r.
Qed.

Lemma currentTime_in_string_length (w : world) :
  String.length (currentTime_in_string w) = 14.
Proof.
  rewrite currentTime_in_string_fields.
  now rewrite !str_app_length, !zero_padded_length.
Qed.


(** Read as a decimal number, the timestamp is [YYYYMMDDHHMMSS]. *)
Lemma currentTime_in_string_value (w : world) :
  valid_datetime (now w) ->
  Z_of_digits 0 (currentTime_in_string w) =
    (Z.of_N (year (now w)) * 10000000000 + Z.of_N (month (now w)) * 100000000
     + Z.of_N (day (now w)) * 1000000 + Z.of_N (hour (now w)) * 10000
     + Z.of_N (minute (now w)) * 100 + Z.of_N (second (now w)))%Z.
Proof.
  intros (Hy & Hm & Hd & HH & HM & HS).
  rewrite currentTime_in_string_fields.
  rewrite !Z_of_digits_app.
  rewrite !Z_of_digits_padded by (cbn; lia).
  cbn. lia.
Qed.

(** ** The success response of a given request *)

Lemma py_getitem_dict (members : dict) (k : string) (v : json) :
  py_getitem (JObj members) (Key k) = Ok v <-> dict_get k members = Some v.
Proof.
  cbn. destruct (dict_get k members); split; intros H; try discriminate;
    injection H as ->; reflexivity.
Qed.

(** The success response, when the fields of the request are known. *)
Lemma handler_success_of_request (w : world) (event : json)
    (context : LambdaContext) (text : string) (reqBody : json)
    (t : list effect) (resp : response) :
  py_getitem event (Key "body") = Ok (JStr text) ->
  json_loads w text = Ok reqBody ->
  handler w event context = (t, Ok resp) ->
  statusCode resp = 200%Z ->
  exists url bucket region uid,
    valid_request reqBody url bucket region uid /\
    resp = {| statusCode := 200;
              body := json_dumps (JObj (success_output w url bucket region uid));
              headers := cors_headers |}.
Proof.
  intros Hb Hl H Hs.
  destruct (handler_success_response _ _ _ _ _ H Hs)
    as (text' & reqBody' & url & bucket & region & uid & Hb' & Hl' & Hv & ->).
  rewrite Hb in Hb'. injection Hb' as <-.
  rewrite Hl in Hl'. injection Hl' as <-.
  exists url, bucket, region, uid. auto.
Qed.

(** A valid request whose job is submitted gets the success response. *)
Lemma handler_success (w : world) (event : json) (context : LambdaContext)
    (text : string) (reqBody : json) (url bucket : string) (region uid : json)
    (role aws_region : string) (t : list effect) (js : json) (key : string) :
  py_getitem event (Key "body") = Ok (JStr text) ->
  json_loads w text = Ok reqBody ->
  missing_required reqBody = Ok false ->
  valid_request reqBody url bucket region uid ->
  environ_get (environ w) "MediaConvertRole" = Ok role ->
  environ_get (environ w) "AWS_DEFAULT_REGION" = Ok aws_region ->
  submit_job w url (py_str w uid) (destinationS3 bucket) (sourceS3Basename url)
    (currentTime_in_string w) role aws_region
    (JObj [("assetID", JStr (py_str w uid))]) = (t, Ok (js, key)) ->
  handler w event context =
    (Print [JStr "Req Body -"; JStr text] :: t,
     Ok {| statusCode := 200;
           body := json_dumps (JObj (success_output w url bucket region uid));
           headers := cors_headers |}).
Proof.
  intros Hb Hl Hm Hv Hrole Hreg Hs. unfold handler.
  rewrite (bind_lift_ok _ _ _ Hb).
  rewrite (bind_call_ok _ _ tt) by reflexivity.
  cbn [loads]. rewrite (bind_lift_ok _ _ _ Hl), (bind_lift_ok _ _ _ Hm).
  rewrite (convert_unfold _ _ _ _ _ _ _ _ Hv Hrole Hreg).
  unfold try_body. rewrite Hs.
  destruct (submit_job_ok _ _ _ _ _ _ _ _ _ _ _ _ Hs) as (-> & Hread & _).
  unfold build_output. rewrite Hread. cbn. rewrite app_nil_r. reflexivity.
Qed.

(** ** C3: the object key *)



(** ** C4: the public URL *)

(** C4. In every success response [final_video_hls_url] is
    ["https://" + destination_bucket + ".s3." + destination_bucket_region +
    ".amazonaws.com" + objectKey + ".m3u8"], the region being formatted as
    an f-string formats it (a string stands for itself) and the object key
    being the [video_s3_key] of the same response; for [my-bucket],
    [us-east-1] and the key [/public/42/20240101000000/HLS/clip] this is
    the URL of the specification. *)
Theorem final_video_hls_url_format :
  (forall (w : world) (event : json) (context : LambdaContext) (text : string)
          (members : dict) (bucket : string) (region : json)
          (t : list effect) (resp : response),
      py_getitem event (Key "body") = Ok (JStr text) ->
      json_loads w text = Ok (JObj members) ->
      dict_get "destination_bucket" members = Some (JStr bucket) ->
      dict_get "destination_bucket_region" members = Some region ->
      handler w event context = (t, Ok resp) ->
      statusCode resp = 200%Z ->
      exists key,
        response_field resp "video_s3_key" = Some (JStr key) /\
        response_field resp "final_video_hls_url" =
          Some (JStr ("https://" ++ bucket ++ ".s3." ++ py_str w region
                      ++ ".amazonaws.com" ++ key ++ ".m3u8"))) /\
  final_video_hls_url "my-bucket" "us-east-1" "/public/42/20240101000000/HLS/clip"
    = "https://my-bucket.s3.us-east-1.amazonaws.com/public/42/20240101000000/HLS/clip.m3u8".
Proof.
  split; [| reflexivity].
  intros w event context text members bucket region t resp Hb Hl Hbk Hrg H Hs.
  destruct (handler_success_of_request _ _ _ _ _ _ _ Hb Hl H Hs)
    as (url & bucket' & region' & uid & (_ & Hb' & Hr' & _) & ->).
  apply py_getitem_dict in Hb', Hr'.
  rewrite Hbk in Hb'. injection Hb' as <-.
  rewrite Hrg in Hr'. injection Hr' as <-.
  eexists. split; reflexivity.
Qed.

Lemma final_video_hls_url_format_witness :
  exists key,
    response_field example_response "video_s3_key" = Some (JStr key) /\
    response_field example_response "final_video_hls_url" =
      Some (JStr ("https://" ++ "my-bucket" ++ ".s3." ++ "us-east-1"
                  ++ ".amazonaws.com" ++ key ++ ".m3u8")).
Proof.
  apply (proj1 final_video_hls_url_format example_world example_event
           lambda_context example_request
           [("video_source_url", JStr "https://example.com/in/clip.mp4");
            ("destination_bucket", JStr "my-bucket");
            ("destination_bucket_region", JStr "us-east-1");
            ("uniqueId", JInt 42)]
           "my-bucket" (JStr "us-east-1") example_trace example_response).
  - reflexivity.
  - vm_compute. reflexivity.
  - reflexivity.
  - reflexivity.
  - vm_compute. reflexivity.
  - reflexivity.
Defined.

(** ** The JSON scanner: fuel and limits *)

(** ** The JSON scanner and its fuel *)

Lemma prepend_some (chunk : string) (m : option (string * string))
    (content rest : string) :
  prepend chunk m = Some (content, rest) ->
  exists content', m = Some (content', rest).
Proof.
  destruct m as [[c r] |]; cbn; intros H; [| discriminate].
  injection H as _ <-. eauto.
Qed.

Lemma skip_ws_length (s : string) : String.length (skip_ws s) <= String.length s.
Proof.
  induction s as [| c r IH]; cbn; auto. destruct (is_ws c); cbn; lia.
Qed.

Lemma skip_ws_cons (s : string) (c : ascii) (r : string) :
  skip_ws s = String c r -> String.length r < String.length s.
Proof.
  intros H. pose proof (skip_ws_length s) as L. rewrite H in L. cbn in L. lia.
Qed.

Ltac break_in H :=
  match type of H with
  | context [match ?x with _ => _ end] => destruct x eqn:?
  end.

Lemma scanstring_length_aux (n : nat) :
  forall s content rest,
    String.length s <= n ->
    scanstring s = Some (content, rest) ->
    String.length rest < String.length s.
Proof.
  induction n as [| n IH]; intros s content rest Hn H.
  - destruct s; cbn in *; [discriminate | lia].
  - destruct s as [| c r]; [discriminate |].
    cbn [scanstring] in H. cbn [String.length] in *.
    repeat (break_in H; try discriminate; cbn [String.length] in * );
      try (injection H as <- <-; lia);
      try (apply prepend_some in H; destruct H as [c' H];
           apply IH in H; cbn [String.length] in *; lia).
Qed.

Lemma scanstring_length (s content rest : string) :
  scanstring s = Some (content, rest) ->
  String.length rest < String.length s.
Proof. eapply scanstring_length_aux; eauto. Qed.

Lemma span_digits_length (s ds rest : string) :
  span_digits s = (ds, rest) -> String.length rest <= String.length s.
Proof.
  revert ds rest. induction s as [| c r IH]; intros ds rest H; cbn in H.
  - injection H as <- <-. auto.
  - destruct (is_digit c).
    + destruct (span_digits r) as [ds' rest'] eqn:E. injection H as <- <-.
      specialize (IH _ _ eq_refl). cbn. lia.
    + injection H as <- <-. auto.
Qed.

Ltac break_all :=
  repeat match goal with
         | H : context [match ?x with _ => _ end] |- _ =>
             destruct x eqn:?; try discriminate
         | E : (_, _) = (_, _) |- _ =>
             apply pair_equal_spec in E; destruct E; subst
         end.

Lemma match_number_length (max_digits : nat) (s : string) (v : json)
    (rest : string) :
  match_number max_digits s = Some (Ok (v, rest)) ->
  String.length rest < String.length s.
Proof.
  unfold match_number. intros H.
  break_all;
    repeat match goal with
           | E : span_digits _ = _ |- _ => apply span_digits_length in E
           | E : String _ _ = String _ _ |- _ =>
               apply (f_equal String.length) in E
           end;
    injection H as <- <-; cbn [String.length] in *; lia.
Qed.

(** The digit limit only turns an [int] into a [ValueError]. *)
Lemma match_number_unlimited (max_digits : nat) (s : string) :
  match match_number max_digits s with
  | Some (Ok x) => match_number 0 s = Some (Ok x)
  | Some (Raise e) => e = ValueError
  | None => match_number 0 s = None
  end.
Proof.
  unfold match_number.
  repeat match goal with
         | |- context [match ?x with _ => _ end] =>
             lazymatch x with
             | (_ && _ && _)%bool => fail
             | context [max_digits] => fail
             | _ => destruct x eqn:?
             end
         end; try reflexivity.
  all: change (Nat.ltb 0 0) with false; rewrite andb_false_r; cbn [andb].
  all: destruct (Nat.ltb 640 _ && Nat.ltb 0 max_digits && Nat.ltb max_digits _);
    reflexivity.
Qed.

Lemma drop_length (n : nat) (s : string) :
  String.length (drop n s) = String.length s - n.
Proof.
  revert s. induction n as [| n IH]; intros [| c r]; cbn; auto.
Qed.

Lemma prefix_length (p s : string) :
  String.prefix p s = true -> String.length p <= String.length s.
Proof.
  revert s. induction p as [| c p IH]; intros s H; cbn; [lia |].
  destruct s as [| d s]; cbn in H; [discriminate |].
  destruct (ascii_dec c d); [| discriminate]. apply IH in H. cbn. lia.
Qed.

Lemma drop_prefix_length (p s : string) (n : nat) :
  String.prefix p s = true -> String.length p = n -> 0 < n ->
  String.length (drop n s) < String.length s.
Proof.
  intros H <- Hn. apply prefix_length in H. rewrite drop_length. lia.
Qed.

Lemma ok_pair_inv {A B : Type} (a c : A) (b d : B) :
  @Ok (A * B) (a, b) = Ok (c, d) -> a = c /\ b = d.
Proof. intros H. injection H. auto. Qed.

(** Closes a length goal from [H : Ok (_, _) = Ok (v, rest)]. *)
Ltac close_returned H :=
  apply ok_pair_inv in H; destruct H as [_ <-];
  cbn [String.length] in *; lia.

(** Each of the three scanners consumes at least one character. *)
Lemma scan_length (max_digits : nat) (fuel : nat) :
  (forall s v rest,
      scan_once max_digits fuel s = Ok (v, rest) ->
      String.length rest < String.length s) /\
  (forall pairs s v rest,
      object_members max_digits fuel pairs s = Ok (v, rest) ->
      String.length rest < String.length s) /\
  (forall values s v rest,
      array_items max_digits fuel values s = Ok (v, rest) ->
      String.length rest < String.length s).
Proof.
  induction fuel as [| fuel (IHs & IHo & IHa)].
  - repeat split; intros; discriminate.
  - repeat split.
    + intros s v rest H. cbn [scan_once] in H.
      destruct s as [| c r]; [discriminate |].
      repeat (break_in H; try discriminate);
        repeat match goal with
               | p : (json * string)%type |- _ => destruct p
               | E : scanstring _ = Some _ |- _ => apply scanstring_length in E
               | E : skip_ws _ = String _ _ |- _ => apply skip_ws_cons in E
               | H' : ?r0 = Ok (_, _), E : match_number _ _ = Some ?r0 |- _ =>
                   rewrite H' in E; apply match_number_length in E
               | E : String.prefix _ _ = true |- _ =>
                   eapply drop_prefix_length in E; [| reflexivity | cbn; lia]
               end;
        first [ close_returned H
              | apply IHo in H; cbn [String.length] in *; lia
              | apply IHa in H; cbn [String.length] in *; lia
              | cbn [String.length] in *; lia ].
    + intros pairs s v rest H. cbn [object_members] in H.
      repeat (break_in H; try discriminate);
        repeat match goal with
               | p : (json * string)%type |- _ => destruct p
               | E : scanstring _ = Some _ |- _ => apply scanstring_length in E
               | E : skip_ws _ = String _ _ |- _ => apply skip_ws_cons in E
               | E : scan_once _ _ _ = Ok _ |- _ => apply IHs in E
               end;
        try match goal with
            | E : String.length _ < String.length (skip_ws ?x) |- _ =>
                pose proof (skip_ws_length x)
            end;
        first [ close_returned H
              | apply IHo in H; cbn [String.length] in *; lia ].
    + intros values s v rest H. cbn [array_items] in H.
      repeat (break_in H; try discriminate);
        repeat match goal with
               | p : (json * string)%type |- _ => destruct p
               | E : skip_ws _ = String _ _ |- _ => apply skip_ws_cons in E
               | E : scan_once _ _ _ = Ok _ |- _ => apply IHs in E
               end;
        first [ close_returned H
              | apply IHa in H;
                match type of H with
                | _ < String.length (skip_ws ?x) => pose proof (skip_ws_length x)
                end;
                cbn [String.length] in *; lia ].
Qed.

(** Collects what is known about lengths, then [lia]. *)
Ltac length_facts :=
  repeat match goal with
         | p : (json * string)%type |- _ => destruct p
         | E : scanstring _ = Some _ |- _ => apply scanstring_length in E
         | E : skip_ws _ = String _ _ |- _ => apply skip_ws_cons in E
         | E : scan_once _ _ _ = Ok _ |- _ =>
             apply (proj1 (scan_length _ _)) in E
         end;
  repeat match goal with
         | |- context [skip_ws ?x] =>
             lazymatch goal with
             | _ : String.length (skip_ws x) <= String.length x |- _ => fail
             | _ => pose proof (skip_ws_length x)
             end
         | _ : context [skip_ws ?x] |- _ =>
             lazymatch goal with
             | _ : String.length (skip_ws x) <= String.length x |- _ => fail
             | _ => pose proof (skip_ws_length x)
             end
         end;
  cbn [String.length] in *; lia.

(** Beyond twice the length of the text, more fuel changes nothing. *)
Lemma scan_fuel (max_digits : nat) (f1 : nat) :
  forall f2,
    (forall s,
        2 * String.length s < f1 -> 2 * String.length s < f2 ->
        scan_once max_digits f1 s = scan_once max_digits f2 s) /\
    (forall pairs s,
        2 * String.length s < f1 -> 2 * String.length s < f2 ->
        object_members max_digits f1 pairs s =
        object_members max_digits f2 pairs s) /\
    (forall values s,
        2 * String.length s + 1 < f1 -> 2 * String.length s + 1 < f2 ->
        array_items max_digits f1 values s =
        array_items max_digits f2 values s).
Proof.
  induction f1 as [| f1 IH]; intros f2.
  - repeat split; intros; lia.
  - destruct f2 as [| f2]; [repeat split; intros; lia |].
    destruct (IH f2) as (IHs & IHo & IHa). clear IH.
    repeat split.
    + intros s H1 H2. cbn [scan_once].
      destruct s as [| c r]; [reflexivity |].
      repeat first
        [ reflexivity
        | match goal with
          | |- object_members _ f1 ?p ?x = object_members _ f2 ?p ?x =>
              apply IHo; length_facts
          | |- array_items _ f1 ?p ?x = array_items _ f2 ?p ?x =>
              apply IHa; length_facts
          | |- context [match ?x with _ => _ end] => destruct x eqn:?
          end ].
    + intros pairs s H1 H2. cbn [object_members].
      repeat first
        [ reflexivity
        | match goal with
          | |- context [scan_once _ f1 ?x] =>
              rewrite (IHs x) by length_facts
          | |- object_members _ f1 ?p ?x = object_members _ f2 ?p ?x =>
              apply IHo; length_facts
          | |- context [match ?x with _ => _ end] => destruct x eqn:?
          end ].
    + intros values s H1 H2. cbn [array_items].
      repeat first
        [ reflexivity
        | match goal with
          | |- context [scan_once _ f1 ?x] =>
              rewrite (IHs x) by length_facts
          | |- array_items _ f1 ?p ?x = array_items _ f2 ?p ?x =>
              apply IHa; length_facts
          | |- context [match ?x with _ => _ end] => destruct x eqn:?
          end ].
Qed.

(** [json_decode] gives [scan_once] all the fuel it can use. *)
Lemma scan_once_fuel (max_digits : nat) (s : string) (fuel : nat) :
  2 * String.length s + 2 <= fuel ->
  scan_once max_digits fuel (skip_ws s) =
  scan_once max_digits (2 * String.length s + 2) (skip_ws s).
Proof.
  intros H. pose proof (skip_ws_length s).
  apply (proj1 (scan_fuel max_digits fuel (2 * String.length s + 2))); lia.
Qed.

(** What the scanner returns under a digit limit, it returns without
    one. *)
Lemma scan_ok_unlimited (max_digits : nat) (fuel : nat) :
  (forall s x,
      scan_once max_digits fuel s = Ok x -> scan_once 0 fuel s = Ok x) /\
  (forall pairs s x,
      object_members max_digits fuel pairs s = Ok x ->
      object_members 0 fuel pairs s = Ok x) /\
  (forall values s x,
      array_items max_digits fuel values s = Ok x ->
      array_items 0 fuel values s = Ok x).
Proof.
  induction fuel as [| fuel (IHs & IHo & IHa)].
  - repeat split; intros; discriminate.
  - repeat split.
    + intros s x H. cbn [scan_once] in *.
      destruct s as [| c r]; [discriminate |].
      destruct (Ascii.eqb c dquote); [exact H |].
      destruct (Ascii.eqb c "{").
      { destruct (skip_ws r) as [| c1 r1]; [discriminate |].
        destruct (Ascii.eqb c1 "}"); [exact H |].
        destruct (Ascii.eqb c1 dquote); [| discriminate].
        apply IHo, H. }
      destruct (Ascii.eqb c "[").
      { destruct (skip_ws r) as [| c1 r1]; [discriminate |].
        destruct (Ascii.eqb c1 "]"); [exact H |].
        apply IHa, H. }
      destruct (String.prefix "null" (String c r)); [exact H |].
      destruct (String.prefix "true" (String c r)); [exact H |].
      destruct (String.prefix "false" (String c r)); [exact H |].
      pose proof (match_number_unlimited max_digits (String c r)) as Hn.
      destruct (match_number max_digits (String c r)) as [[y | e] |].
      * rewrite Hn. exact H.
      * discriminate.
      * rewrite Hn. exact H.
    + intros pairs s x H. cbn [object_members] in *.
      destruct (scanstring s) as [[key s1] |]; [| discriminate].
      destruct (skip_ws s1) as [| colon s2]; [discriminate |].
      destruct (Ascii.eqb colon ":"); [| discriminate].
      destruct (scan_once max_digits fuel (skip_ws s2)) as [[value s3] | e]
        eqn:E; [| discriminate].
      rewrite (IHs _ _ E).
      destruct (skip_ws s3) as [| nextchar s4]; [discriminate |].
      destruct (Ascii.eqb nextchar "}"); [exact H |].
      destruct (Ascii.eqb nextchar ","); [| discriminate].
      destruct (skip_ws s4) as [| q s5]; [discriminate |].
      destruct (Ascii.eqb q dquote); [| discriminate].
      apply IHo, H.
    + intros values s x H. cbn [array_items] in *.
      destruct (scan_once max_digits fuel s) as [[value s1] | e] eqn:E;
        [| discriminate].
      rewrite (IHs _ _ E).
      destruct (skip_ws s1) as [| nextchar s2]; [discriminate |].
      destruct (Ascii.eqb nextchar "]"); [exact H |].
      destruct (Ascii.eqb nextchar ","); [| discriminate].
      apply IHa, H.
Qed.

Lemma json_decode_ok_unlimited (max_digits : nat) (s : string) (v : json) :
  json_decode max_digits s = Ok v -> json_decode 0 s = Ok v.
Proof.
  unfold json_decode. intros H.
  destruct (scan_once max_digits _ _) as [[v0 rest] | e] eqn:E;
    [| discriminate].
  rewrite (proj1 (scan_ok_unlimited max_digits _) _ _ E).
  exact H.
Qed.

Lemma json_loads_ok (w : world) (s : string) (v : json) :
  json_loads w s = Ok v -> json_decode (int_max_str_digits w) s = Ok v.
Proof.
  unfold json_loads. destruct (loads_recursion_error w s); [discriminate |].
  auto.
Qed.

(** Two interpreters that both decode a text decode it to the same value:
    the limits decide whether [json.loads] returns, not what. *)
Lemma json_loads_agree (w1 w2 : world) (s : string) (v1 v2 : json) :
  json_loads w1 s = Ok v1 -> json_loads w2 s = Ok v2 -> v1 = v2.
Proof.
  intros H1 H2.
  apply json_loads_ok, json_decode_ok_unlimited in H1.
  apply json_loads_ok, json_decode_ok_unlimited in H2.
  congruence.
Qed.

Lemma scan_raises (max_digits : nat) (fuel : nat) :
  (forall s e,
      scan_once max_digits fuel s = Raise e -> decoder_error e) /\
  (forall pairs s e,
      object_members max_digits fuel pairs s = Raise e ->
      decoder_error e) /\
  (forall values s e,
      array_items max_digits fuel values s = Raise e -> decoder_error e).
Proof.
  assert (D : forall e, @Raise (json * string) JSONDecodeError = Raise e ->
                        decoder_error e).
  { intros e H. injection H as <-. left. reflexivity. }
  induction fuel as [| fuel (IHs & IHo & IHa)].
  - repeat split; intros; cbn in *; auto.
  - repeat split.
    + intros s e H. cbn [scan_once] in H.
      destruct s as [| c r]; [auto |].
      pose proof (match_number_unlimited max_digits (String c r)) as Hn.
      repeat (break_in H; try discriminate); eauto.
      subst. right. left. reflexivity.
    + intros pairs s e H. cbn [object_members] in H.
      repeat (break_in H; try discriminate); eauto.
      injection H as <-. eauto.
    + intros values s e H. cbn [array_items] in H.
      repeat (break_in H; try discriminate); eauto.
      injection H as <-. eauto.
Qed.

Lemma json_decode_raises (max_digits : nat) (s : string) (e : exn) :
  json_decode max_digits s = Raise e -> decoder_error e.
Proof.
  unfold json_decode. intros H.
  destruct (scan_once max_digits _ _) as [[v rest] | e0] eqn:E.
  - destruct (is_empty (skip_ws rest)); [discriminate |].
    injection H as <-. left. reflexivity.
  - injection H as <-. exact (proj1 (scan_raises _ _) _ _ E).
Qed.

Lemma json_loads_raises (w : world) (text : string) (e : exn) :
  json_loads w text = Raise e -> decoder_error e.
Proof.
  unfold json_loads. destruct (loads_recursion_error w text).
  - intros H. injection H as <-. right. right. reflexivity.
  - apply json_decode_raises.
Qed.

(** ** C7: the key and the timestamp *)

Lemma video_S3Key_inj_time (uid ts1 ts2 base : string) :
  video_S3Key uid ts1 base = video_S3Key uid ts2 base -> ts1 = ts2.
Proof.
  unfold video_S3Key. intros H.
  apply (str_app_inv_head "/public/") in H.
  apply str_app_inv_head in H.
  apply (str_app_inv_head "/") in H.
  now apply str_app_inv_tail in H.
Qed.

Lemma some_jstr_inj (a b : string) : Some (JStr a) = Some (JStr b) -> a = b.
Proof. intros H. injection H. auto. Qed.

(** On clocks in range the timestamp determines the second it was read in. *)
Lemma timestamp_determines_second (w1 w2 : world) :
  valid_datetime (now w1) -> valid_datetime (now w2) ->
  currentTime_in_string w1 = currentTime_in_string w2 ->
  year (now w1) = year (now w2) /\ month (now w1) = month (now w2) /\
  day (now w1) = day (now w2) /\ hour (now w1) = hour (now w2) /\
  minute (now w1) = minute (now w2) /\ second (now w1) = second (now w2).
Proof.
  intros H1 H2 E. apply (f_equal (Z_of_digits 0)) in E.
  rewrite !currentTime_in_string_value in E by assumption.
  unfold valid_datetime in H1, H2. lia.
Qed.

(** C7. Two invocations on the same event, both answered with status 200:
    when their timestamps differ, so do the object keys, the reported S3
    paths and the destinations; when the timestamps are equal the keys are
    equal, the key being a function of the payload and the timestamp.  The
    two worlds format values by the same [str]. *)
Theorem key_depends_on_timestamp (w1 w2 : world) (event : json)
    (context : LambdaContext) (t1 t2 : list effect) (r1 r2 : response) :
  handler w1 event context = (t1, Ok r1) -> statusCode r1 = 200%Z ->
  handler w2 event context = (t2, Ok r2) -> statusCode r2 = 200%Z ->
  repr_of w1 = repr_of w2 ->
  (currentTime_in_string w1 <> currentTime_in_string w2 ->
     response_field r1 "video_s3_key" <> response_field r2 "video_s3_key" /\
     response_field r1 "video_s3_path" <> response_field r2 "video_s3_path" /\
     response_field r1 "final_video_url" <> response_field r2 "final_video_url") /\
  (currentTime_in_string w1 = currentTime_in_string w2 ->
     response_field r1 "video_s3_key" = response_field r2 "video_s3_key").
Proof.
  intros H1 S1 H2 S2 Hrepr.
  destruct (handler_success_response _ _ _ _ _ H1 S1)
    as (text & reqBody & url & bucket & region & uid & Hb & Hl & Hv & ->).
  destruct (handler_success_response _ _ _ _ _ H2 S2)
    as (text' & reqBody' & url' & bucket' & region' & uid' & Hb' & Hl' & Hv'
        & ->).
  rewrite Hb in Hb'. injection Hb' as <-.
  rewrite <- (json_loads_agree _ _ _ _ _ Hl Hl') in Hv'.
  destruct Hv as (Hu & Hbk & Hr & Hi), Hv' as (Hu' & Hbk' & Hr' & Hi').
  rewrite Hu in Hu'. injection Hu' as <-.
  rewrite Hbk in Hbk'. injection Hbk' as <-.
  rewrite Hi in Hi'. injection Hi' as <-.
  assert (Hstr : py_str w1 uid = py_str w2 uid).
  { destruct uid; cbn; try reflexivity; now rewrite Hrepr. }
  cbn [response_field body success_output dict_get String.eqb Ascii.eqb Bool.eqb].
  rewrite Hstr. split.
  - intros Hne. split; [| split]; intros E; apply some_jstr_inj in E; apply Hne.
    + exact (video_S3Key_inj_time _ _ _ _ E).
    + apply (str_app_inv_head (destinationS3 bucket)) in E.
      exact (video_S3Key_inj_time _ _ _ _ E).
    + apply (str_app_inv_head (destinationS3 bucket)) in E.
      exact (video_S3Key_inj_time _ _ _ _ E).
  - intros ->. reflexivity.
Qed.

Lemma key_depends_on_timestamp_witness :
  response_field example_response "video_s3_key"
    <> response_field later_response "video_s3_key".
Proof.
  destruct (key_depends_on_timestamp example_world later_world example_event
              lambda_context example_trace later_trace
              example_response later_response) as [Hdiff _].
  - vm_compute. reflexivity.
  - reflexivity.
  - vm_compute. reflexivity.
  - reflexivity.
  - reflexivity.
  - apply Hdiff. vm_compute. discriminate.
Defined.

(** ** C10: the destination and the stringified identifier *)

Lemma dict_mem_set (k k' : string) (v v' : json) (d : dict) :
  dict_mem k' (dict_set k v d) = dict_mem k' (dict_set k v' d).
Proof.
  unfold dict_mem. destruct (String.eqb_spec k k') as [<- | Hne].
  - now rewrite !dict_get_set_same.
  - now rewrite !dict_get_set_other.
Qed.

(** [convert] reads [uniqueId] only through [str]. *)
Lemma convert_uniqueId (w : world) (members : dict) (uid : json) :
  convert w (JObj (dict_set "uniqueId" uid members)) =
  convert w (JObj (dict_set "uniqueId" (JStr (py_str w uid)) members)).
Proof.
  unfold convert. cbn [py_getitem].
  rewrite !dict_get_set_same.
  rewrite !(dict_get_set_other "uniqueId" "video_source_url") by discriminate.
  rewrite !(dict_get_set_other "uniqueId" "destination_bucket") by discriminate.
  rewrite !(dict_get_set_other "uniqueId" "destination_bucket_region")
    by discriminate.
  reflexivity.
Qed.

(** The outcome of the handler is that of validation and [convert] on the
    parsed body. *)
Lemma handler_outcome (w : world) (event : json) (context : LambdaContext)
    (text : string) (reqBody : json) :
  py_getitem event (Key "body") = Ok (JStr text) ->
  json_loads w text = Ok reqBody ->
  snd (handler w event context) =
    snd (bind (lift (missing_required reqBody))
           (fun missing : bool =>
              if missing then ret bad_request else convert w reqBody)).
Proof.
  intros Hb Hl. unfold handler.
  rewrite (bind_lift_ok _ _ _ Hb).
  rewrite (bind_call_ok _ _ tt) by reflexivity.
  cbn [loads snd]. now rewrite (bind_lift_ok _ _ _ Hl).
Qed.

(** C10. In every success response [final_video_url] and [video_s3_path]
    are the same string, ["s3://" + destination_bucket + objectKey], and
    the job was submitted with that string as the destination of the HLS
    output group of the template.  The identifier is read through [str]:
    a request with [uniqueId] and the same request with the string
    [str(uniqueId)] in its place have the same outcome, be it a response
    or an exception. *)
Theorem destination_and_identifier :
  (forall (w : world) (event : json) (context : LambdaContext) (text : string)
          (members : dict) (bucket : string) (t : list effect) (resp : response),
      py_getitem event (Key "body") = Ok (JStr text) ->
      json_loads w text = Ok (JObj members) ->
      dict_get "destination_bucket" members = Some (JStr bucket) ->
      handler w event context = (t, Ok resp) ->
      statusCode resp = 200%Z ->
      exists key,
        response_field resp "video_s3_key" = Some (JStr key) /\
        response_field resp "final_video_url"
          = Some (JStr ("s3://" ++ bucket ++ key)) /\
        response_field resp "video_s3_path"
          = Some (JStr ("s3://" ++ bucket ++ key)) /\
        exists c role meta settings t0,
          t = (t0 ++ [CreateJob c role meta settings])%list /\
          py_getitem_path settings
            [Key "OutputGroups"; Index 0; Key "OutputGroupSettings";
             Key "HlsGroupSettings"; Key "Destination"]
            = Ok (JStr ("s3://" ++ bucket ++ key))) /\
  (forall (w : world) (context : LambdaContext) (event1 event2 : json)
          (text1 text2 : string) (members : dict) (uid : json),
      py_getitem event1 (Key "body") = Ok (JStr text1) ->
      py_getitem event2 (Key "body") = Ok (JStr text2) ->
      json_loads w text1 = Ok (JObj (dict_set "uniqueId" uid members)) ->
      json_loads w text2
        = Ok (JObj (dict_set "uniqueId" (JStr (py_str w uid)) members)) ->
      snd (handler w event1 context) = snd (handler w event2 context)).
Proof.
  split.
  - intros w event context text members bucket t resp Hb Hl Hbk H Hs.
    apply handler_returns in H.
    destruct H as (text' & reqBody & Hb' & Hl' & [(_ & -> & _) | (_ & t' & Hc & ->)]);
      [discriminate |].
    rewrite Hb in Hb'. injection Hb' as <-.
    rewrite Hl in Hl'. injection Hl' as <-.
    apply convert_returns in Hc.
    destruct Hc as (url & bucket' & region & uid & (_ & Hb' & _) & -> & Htr).
    apply py_getitem_dict in Hb'. rewrite Hbk in Hb'. injection Hb' as <-.
    destruct Htr as (c & role & meta & settings & t0 & -> & Hdest).
    eexists. split; [reflexivity |]. split; [reflexivity |].
    split; [reflexivity |].
    exists c, role, meta, settings, (Print [JStr "Req Body -"; JStr text] :: t0).
    split; [reflexivity | exact Hdest].
  - intros w context event1 event2 text1 text2 members uid Hb1 Hb2 Hl1 Hl2.
    rewrite (handler_outcome _ _ _ _ _ Hb1 Hl1), (handler_outcome _ _ _ _ _ Hb2 Hl2).
    rewrite !missing_required_dict.
    rewrite convert_uniqueId.
    rewrite !(dict_mem_set "uniqueId" _ uid (JStr (py_str w uid))).
    reflexivity.
Qed.

Lemma destination_and_identifier_witness :
  (exists key,
      response_field example_response "video_s3_key" = Some (JStr key) /\
      response_field example_response "final_video_url"
        = Some (JStr ("s3://" ++ "my-bucket" ++ key)) /\
      response_field example_response "video_s3_path"
        = Some (JStr ("s3://" ++ "my-bucket" ++ key)) /\
      exists c role meta settings t0,
        example_trace = (t0 ++ [CreateJob c role meta settings])%list /\
        py_getitem_path settings
          [Key "OutputGroups"; Index 0; Key "OutputGroupSettings";
           Key "HlsGroupSettings"; Key "Destination"]
          = Ok (JStr ("s3://" ++ "my-bucket" ++ key))) /\
  snd (handler example_world example_event lambda_context)
    = snd (handler example_world (event_with_body example_request_string_id)
             lambda_context).
Proof.
  split.
  - apply (proj1 destination_and_identifier example_world example_event
             lambda_context example_request
             [("video_source_url", JStr "https://example.com/in/clip.mp4");
              ("destination_bucket", JStr "my-bucket");
              ("destination_bucket_region", JStr "us-east-1");
              ("uniqueId", JInt 42)]
             "my-bucket" example_trace example_response).
    + reflexivity.
    + vm_compute. reflexivity.
    + reflexivity.
    + vm_compute. reflexivity.
    + reflexivity.
  - apply (proj2 destination_and_identifier example_world lambda_context
             example_event (event_with_body example_request_string_id)
             example_request example_request_string_id
             [("video_source_url", JStr "https://example.com/in/clip.mp4");
              ("destination_bucket", JStr "my-bucket");
              ("destination_bucket_region", JStr "us-east-1")]
             (JInt 42)).
    + reflexivity.
    + reflexivity.
    + vm_compute. reflexivity.
    + vm_compute. reflexivity.
Defined.

(** ** C9: parsing comes before validation *)





(** Three bodies in the example world, whose digit limit is 4300 and
    whose stack holds 900 nested containers.  [json.loads] accepts [NaN],
    so the body [[NaN]] reaches the validation; an integer literal over
    the digit limit and nesting the stack does not hold stop the handler
    with the exception of [json.loads]. *)
Lemma nan_body_validation_response :
  handler example_world (event_with_body "[NaN]") lambda_context
    = ([Print [JStr "Req Body -"; JStr "[NaN]"]], Ok bad_request).
Proof. vm_compute. reflexivity. Qed.

Lemma long_integer_body_raises :
  handler example_world (event_with_body long_integer_body) lambda_context
    = ([Print [JStr "Req Body -"; JStr long_integer_body]], Raise ValueError).
Proof. vm_compute. reflexivity. Qed.

Lemma deep_body_raises :
  handler example_world (event_with_body deep_body) lambda_context
    = ([Print [JStr "Req Body -"; JStr deep_body]], Raise RecursionError).
Proof. vm_compute. reflexivity. Qed.

(** ** C2: a failure inside the [try] block *)

(** When the template, the endpoint discovery or the submission raises,
    the exception is printed and the handler raises [UnboundLocalError]:
    no response is returned. *)
Lemma handler_failure (w : world) (event : json) (context : LambdaContext)
    (text : string) (reqBody : json) (url bucket : string) (region uid : json)
    (role aws_region : string) (t : list effect) (e : exn) :
  py_getitem event (Key "body") = Ok (JStr text) ->
  json_loads w text = Ok reqBody ->
  missing_required reqBody = Ok false ->
  valid_request reqBody url bucket region uid ->
  environ_get (environ w) "MediaConvertRole" = Ok role ->
  environ_get (environ w) "AWS_DEFAULT_REGION" = Ok aws_region ->
  submit_job w url (py_str w uid) (destinationS3 bucket) (sourceS3Basename url)
    (currentTime_in_string w) role aws_region
    (JObj [("assetID", JStr (py_str w uid))]) = (t, Raise e) ->
  handler w event context =
    ((Print [JStr "Req Body -"; JStr text] :: t ++ [PrintException e])%list,
     Raise (UnboundLocalError "outputData")).
Proof.
  intros Hb Hl Hm Hv Hrole Hreg Hs. unfold handler.
  rewrite (bind_lift_ok _ _ _ Hb).
  rewrite (bind_call_ok _ _ tt) by reflexivity.
  cbn [loads]. rewrite (bind_lift_ok _ _ _ Hl), (bind_lift_ok _ _ _ Hm).
  rewrite (convert_unfold _ _ _ _ _ _ _ _ Hv Hrole Hreg).
  unfold try_body. rewrite Hs. reflexivity.
Qed.

(** No response with status 500 is ever returned. *)
Lemma handler_never_returns_500 (w : world) (event : json)
    (context : LambdaContext) (t : list effect) (resp : response) :
  handler w event context = (t, Ok resp) -> statusCode resp <> 500%Z.
Proof.
  intros H. apply handler_response_cases in H.
  destruct H as [-> | (text & reqBody & url & bucket & region & uid & H)].
  - discriminate.
  - destruct H as (_ & _ & _ & _ & ->). discriminate.
Qed.

(** C2, on the code.  In the world where [create_job] raises, the handler
    on a valid request loads the template, discovers the endpoint, calls
    [create_job], prints the exception and then raises
    [UnboundLocalError] for [outputData]: it returns no response, and the
    exception that reaches the runtime is not the one [create_job] raised. *)
Theorem handler_submission_failure :
  exists t settings,
    handler failing_world example_event lambda_context =
      ((t ++ [CreateJob
                (job_client "us-west-2"
                   (JStr "https://abcd1234.mediaconvert.us-west-2.amazonaws.com"))
                "arn:aws:iam::123456789012:role/MediaConvert"
                (JObj [("assetID", JStr "42")]) settings;
              PrintException (ClientError "create_job failed")])%list,
       Raise (UnboundLocalError "outputData")).
Proof.
  eexists [_; _; _; _; _]. eexists. vm_compute. reflexivity.
Qed.

(** ** C5: the base name *)

Lemma rfind_from_split_last (c : ascii) (s : string) (i last : Z) :
  rfind_from c s i last =
    match split_last c s with
    | Some (before, _) => (i + Z.of_nat (String.length before))%Z
    | None => last
    end.
Proof.
  revert i last. induction s as [| a r IH]; intros i last; cbn [rfind_from split_last].
  - reflexivity.
  - rewrite IH. destruct (split_last c r) as [[before after] |].
    + cbn [String.length]. lia.
    + destruct (Ascii.eqb a c); cbn [String.length]; lia.
Qed.

Lemma split_last_app (c : ascii) (s before after : string) :
  split_last c s = Some (before, after) -> s = before ++ String c after.
Proof.
  revert before. induction s as [| a r IH]; intros before H; cbn in H.
  - discriminate.
  - destruct (split_last c r) as [[b' a'] |].
    + injection H as <- <-. cbn. f_equal. now apply IH.
    + destruct (Ascii.eqb_spec a c) as [-> | _]; [| discriminate].
      injection H as <- <-. reflexivity.
Qed.

(** Nothing after the last occurrence holds the character again. *)
Lemma split_last_after (c : ascii) (s before after : string) :
  split_last c s = Some (before, after) -> split_last c after = None.
Proof.
  revert before. induction s as [| a r IH]; intros before H; cbn in H.
  - discriminate.
  - destruct (split_last c r) as [[b' a'] |] eqn:E.
    + injection H as <- <-. eapply IH. reflexivity.
    + destruct (Ascii.eqb a c); [| discriminate].
      injection H as <- <-. exact E.
Qed.

Lemma drop_app (a b : string) : drop (String.length a) (a ++ b) = b.
Proof. induction a as [| c a IH]; cbn; auto. Qed.


(** [basename] in terms of the cut at the last [/]. *)
Lemma basename_split_last (p : string) :
  basename p =
    match split_last slash p with
    | Some (_, name) => name
    | None => p
    end.
Proof.
  unfold basename, rfind. rewrite rfind_from_split_last.
  destruct (split_last slash p) as [[before after] |] eqn:E.
  - apply split_last_app in E. subst p.
    replace (Z.to_nat (0 + Z.of_nat (String.length before) + 1))
      with (String.length (before ++ String slash EmptyString))
      by (rewrite str_app_length; cbn; lia).
    rewrite <- (drop_app (before ++ String slash EmptyString) after) at 2.
    now rewrite str_app_assoc.
  - reflexivity.
Qed.

Lemma basename_split_last_none (p : string) :
  split_last slash (basename p) = None.
Proof.
  rewrite basename_split_last.
  destruct (split_last slash p) as [[before after] |] eqn:E.
  - eapply split_last_after; eauto.
  - exact E.
Qed.



Lemma split_last_none_occurs (c : ascii) (s : string) :
  split_last c s = None <-> occurs c s = false.
Proof.
  induction s as [| a r IH]; cbn [split_last occurs].
  - tauto.
  - destruct (split_last c r) as [[before after] |].
    + split; [discriminate |]. intros H. apply orb_false_iff in H.
      destruct H as [_ H]. apply IH in H. discriminate.
    + destruct (Ascii.eqb a c); cbn [orb].
      * split; discriminate.
      * split; intros _; [now apply IH | reflexivity].
Qed.

Lemma occurs_app (c : ascii) (a b : string) :
  occurs c (a ++ b) = occurs c a || occurs c b.
Proof. induction a as [| x a IH]; cbn; auto. now rewrite IH, orb_assoc. Qed.










(** C5 as stated fails: the source takes the text after the last [/] of
    the whole URL string, so a [/] in the query ends up in the base name;
    for [https://example.com/in/clip.mp4?sig=a/b] the last path segment
    without its extension is [clip], the derived base name [b]. *)
Lemma base_name_of_url_with_query :
  ~ (forall video_source_url : string,
        sourceS3Basename video_source_url = spec_base_name video_source_url).
Proof.
  intros H.
  specialize (H "https://example.com/in/clip.mp4?sig=a/b").
  vm_compute in H. discriminate.
Qed.



(** * Further properties of the handler *)

(** ** Status codes *)

(** X2. A returned response has status 400 or status 200; the value 500
    that the [except] clause stores never reaches a response. *)
Theorem handler_status_codes (w : world) (event : json) (context : LambdaContext)
    (t : list effect) (resp : response) :
  handler w event context = (t, Ok resp) ->
  resp = bad_request \/ statusCode resp = 200%Z.
Proof.
  intros H. apply handler_response_cases in H.
  destruct H as [-> | (text & reqBody & url & bucket & region & uid & H)].
  - left. reflexivity.
  - right. destruct H as (_ & _ & _ & _ & ->). reflexivity.
Qed.

Lemma handler_status_codes_witness :
  example_response = bad_request \/ statusCode example_response = 200%Z.
Proof.
  apply (handler_status_codes example_world example_event lambda_context
           example_trace example_response).
  vm_compute. reflexivity.
Defined.

(** ** Bodies that are not objects *)

(** X5. The body is validated with [in], which is not defined on [None],
    booleans and numbers: such a body makes the handler raise [TypeError]
    after the [print], and so does an event whose [body] is not a string,
    which [json.loads] refuses. *)
Theorem handler_scalar_body (w : world) (event : json) (context : LambdaContext) :
  (forall text reqBody,
      py_getitem event (Key "body") = Ok (JStr text) ->
      json_loads w text = Ok reqBody ->
      is_scalar reqBody = true ->
      handler w event context
        = ([Print [JStr "Req Body -"; JStr text]], Raise TypeError)) /\
  (forall v,
      py_getitem event (Key "body") = Ok v ->
      (forall text, v <> JStr text) ->
      handler w event context
        = ([Print [JStr "Req Body -"; v]], Raise TypeError)).
Proof.
  split.
  - intros text reqBody Hb Hl Hs. unfold handler.
    rewrite (bind_lift_ok _ _ _ Hb).
    rewrite (bind_call_ok _ _ tt) by reflexivity.
    cbn [loads]. rewrite (bind_lift_ok _ _ _ Hl).
    destruct reqBody; try discriminate; reflexivity.
  - intros v Hb Hv. unfold handler.
    rewrite (bind_lift_ok _ _ _ Hb).
    rewrite (bind_call_ok _ _ tt) by reflexivity.
    destruct v; try reflexivity. exfalso. eapply Hv. reflexivity.
Qed.

Lemma handler_scalar_body_witness :
  handler example_world (event_with_body "12") lambda_context
    = ([Print [JStr "Req Body -"; JStr "12"]], Raise TypeError) /\
  handler example_world (JObj [("body", JNull)]) lambda_context
    = ([Print [JStr "Req Body -"; JNull]], Raise TypeError).
Proof.
  split.
  - apply (proj1 (handler_scalar_body example_world (event_with_body "12")
                    lambda_context) "12" (JInt 12)).
    + reflexivity.
    + vm_compute. reflexivity.
    + reflexivity.
  - apply (proj2 (handler_scalar_body example_world (JObj [("body", JNull)])
                    lambda_context) JNull).
    + reflexivity.
    + intros text. discriminate.
Defined.

(** X6. A body that parses to a JSON array or string is never converted:
    [in] is defined on it and does not raise, so it gets the 400 response
    when a name is missing from it, and otherwise the first subscript by a
    field name raises [TypeError].  No outside call is made either way. *)
Theorem handler_array_or_string_body (w : world) (event : json)
    (context : LambdaContext) (text : string) (reqBody : json) :
  py_getitem event (Key "body") = Ok (JStr text) ->
  json_loads w text = Ok reqBody ->
  (exists items, reqBody = JArr items) \/ (exists s, reqBody = JStr s) ->
  (exists missing, missing_required reqBody = Ok missing) /\
  (missing_required reqBody = Ok true ->
   handler w event context
     = ([Print [JStr "Req Body -"; JStr text]], Ok bad_request)) /\
  (missing_required reqBody = Ok false ->
   handler w event context
     = ([Print [JStr "Req Body -"; JStr text]], Raise TypeError)).
Proof.
  intros Hb Hl Hshape.
  assert (Hrun : forall missing,
             missing_required reqBody = Ok missing ->
             handler w event context
               = ([Print [JStr "Req Body -"; JStr text]],
                  if missing then Ok bad_request else Raise TypeError)).
  { intros missing Hm. unfold handler.
    rewrite (bind_lift_ok _ _ _ Hb).
    rewrite (bind_call_ok _ _ tt) by reflexivity.
    cbn [loads]. rewrite (bind_lift_ok _ _ _ Hl), (bind_lift_ok _ _ _ Hm).
    destruct missing; [reflexivity |].
    destruct Hshape as [[items ->] | [s ->]]; reflexivity. }
  split; [| split].
  - destruct Hshape as [[items ->] | [s ->]];
      unfold missing_required, py_not_in, py_in; cbn;
      repeat match goal with
             | |- context [negb ?b] => destruct b; cbn
             end; eauto.
  - intros Hm. exact (Hrun true Hm).
  - intros Hm. exact (Hrun false Hm).
Qed.

Lemma handler_array_or_string_body_witness :
  handler example_world
    (event_with_body
       (json_text_of
          "['video_source_url', 'destination_bucket', 'destination_bucket_region', 'uniqueId']"))
    lambda_context
  = ([Print [JStr "Req Body -";
             JStr (json_text_of
                     "['video_source_url', 'destination_bucket', 'destination_bucket_region', 'uniqueId']")]],
     Raise TypeError).
Proof.
  apply (handler_array_or_string_body example_world _ lambda_context _
           (JArr [JStr "video_source_url"; JStr "destination_bucket";
                  JStr "destination_bucket_region"; JStr "uniqueId"])).
  - reflexivity.
  - vm_compute. reflexivity.
  - left. eexists. reflexivity.
  - reflexivity.
Defined.

(** ** A body that is an object with the four fields *)

Lemma environ_get_absent (env : list (string * string)) (name : string) :
  ~ In name (map fst env) -> environ_get env name = Raise (KeyError name).
Proof.
  induction env as [| [k v] env IH]; cbn; intros Hn; [reflexivity |].
  destruct (String.eqb_spec name k) as [-> | Hne].
  - exfalso. apply Hn. now left.
  - apply IH. intros Hin. apply Hn. now right.
Qed.

Lemma environ_get_present (env : list (string * string)) (name : string) :
  In name (map fst env) -> exists v, environ_get env name = Ok v.
Proof.
  induction env as [| [k v] env IH]; cbn [environ_get map fst In]; intros Hin.
  - destruct Hin.
  - destruct (String.eqb_spec name k) as [-> | Hne]; [eauto |].
    destruct Hin as [E | Hin]; [congruence | auto].
Qed.

Section ObjectBody.

Variables (w : world) (event : json) (context : LambdaContext).
Variables (text : string) (members : dict).
Variables (url_v bucket_v region uid : json).

Hypothesis Hbody : py_getitem event (Key "body") = Ok (JStr text).
Hypothesis Hloads : json_loads w text = Ok (JObj members).
Hypothesis Hurl : dict_get "video_source_url" members = Some url_v.
Hypothesis Hbucket : dict_get "destination_bucket" members = Some bucket_v.
Hypothesis Hregion : dict_get "destination_bucket_region" members = Some region.
Hypothesis Huid : dict_get "uniqueId" members = Some uid.

Lemma complete_body_passes : missing_required (JObj members) = Ok false.
Proof.
  rewrite missing_required_dict. unfold dict_mem.
  now rewrite Hurl, Hbucket, Hregion, Huid.
Qed.

(** With the four fields present the handler goes on to [convert]. *)
Lemma handler_runs_convert :
  handler w event context =
    (Print [JStr "Req Body -"; JStr text] :: fst (convert w (JObj members)),
     snd (convert w (JObj members))).
Proof.
  unfold handler. rewrite (bind_lift_ok _ _ _ Hbody).
  rewrite (bind_call_ok _ _ tt) by reflexivity.
  cbn [loads]. rewrite (bind_lift_ok _ _ _ Hloads).
  rewrite (bind_lift_ok _ _ _ complete_body_passes).
  cbn [fst snd]. reflexivity.
Qed.

(** The four reads at the head of [convert]. *)
Lemma convert_reads_fields (A : Type) (k : json -> json -> json -> json -> M A) :
  (video_source_url <- lift (py_getitem (JObj members) (Key "video_source_url")) ;;
   destination_bucket_name <-
     lift (py_getitem (JObj members) (Key "destination_bucket")) ;;
   destination_bucket_region <-
     lift (py_getitem (JObj members) (Key "destination_bucket_region")) ;;
   uniqueId_value <- lift (py_getitem (JObj members) (Key "uniqueId")) ;;
   k video_source_url destination_bucket_name destination_bucket_region
     uniqueId_value)
  = k url_v bucket_v region uid.
Proof.
  cbn [py_getitem]. rewrite Hurl, Hbucket, Hregion, Huid.
  now rewrite !(bind_lift_ok _ _ _ eq_refl).
Qed.

(** X7. When the body is an object holding the four fields, the
    validation response is not produced: whatever response the handler
    returns has status 200. *)
Theorem handler_complete_body_not_400 (t : list effect) (resp : response) :
  handler w event context = (t, Ok resp) -> statusCode resp = 200%Z.
Proof.
  intros H. apply handler_returns in H.
  destruct H as (text' & reqBody & Hb & Hl & [(Hm & _) | (_ & t' & Hc & _)]).
  - rewrite Hbody in Hb. injection Hb as <-.
    rewrite Hloads in Hl. injection Hl as <-.
    rewrite complete_body_passes in Hm. discriminate.
  - apply convert_returns in Hc.
    destruct Hc as (url & bucket & rg & ui & _ & -> & _). reflexivity.
Qed.

(** X4. The source locator and the bucket are used as strings before the
    [try] statement ([os.path.basename(video_source_url)], ['s3://' +
    destination_bucket_name]): when either is another JSON value the
    handler raises [TypeError] with no effect but the [print], outside
    the [try], so nothing is logged and no status is set. *)
Theorem handler_field_type_errors :
  ((forall s, url_v <> JStr s) ->
   handler w event context
     = ([Print [JStr "Req Body -"; JStr text]], Raise TypeError)) /\
  (forall url, url_v = JStr url -> (forall s, bucket_v <> JStr s) ->
   handler w event context
     = ([Print [JStr "Req Body -"; JStr text]], Raise TypeError)).
Proof.
  split.
  - intros Hns. rewrite handler_runs_convert. unfold convert.
    rewrite convert_reads_fields.
    destruct url_v; try reflexivity. exfalso. eapply Hns. reflexivity.
  - intros url Eu Hns. rewrite handler_runs_convert. unfold convert.
    rewrite convert_reads_fields. rewrite Eu. cbn [as_str].
    rewrite (bind_lift_ok _ url) by reflexivity.
    destruct bucket_v; try reflexivity. exfalso. eapply Hns. reflexivity.
Qed.

(** X3. The role and the region are read from the environment before
    the [try] statement: when [MediaConvertRole] is not set, or it is and
    [AWS_DEFAULT_REGION] is not, a request with string locator and
    bucket makes the handler raise [KeyError] for that name, with no
    effect but the [print]. *)
Theorem handler_missing_environment (url bucket : string) :
  url_v = JStr url -> bucket_v = JStr bucket ->
  (~ In "MediaConvertRole" (map fst (environ w)) ->
   handler w event context
     = ([Print [JStr "Req Body -"; JStr text]],
        Raise (KeyError "MediaConvertRole"))) /\
  (In "MediaConvertRole" (map fst (environ w)) ->
   ~ In "AWS_DEFAULT_REGION" (map fst (environ w)) ->
   handler w event context
     = ([Print [JStr "Req Body -"; JStr text]],
        Raise (KeyError "AWS_DEFAULT_REGION"))).
Proof.
  intros Eu Eb. split.
  - intros Hn. rewrite handler_runs_convert. unfold convert.
    rewrite convert_reads_fields. rewrite Eu, Eb. cbn [as_str].
    rewrite (bind_lift_ok _ url) by reflexivity.
    rewrite (bind_lift_ok _ bucket) by reflexivity.
    rewrite (environ_get_absent _ _ Hn). reflexivity.
  - intros Hin Hn. rewrite handler_runs_convert. unfold convert.
    rewrite convert_reads_fields. rewrite Eu, Eb. cbn [as_str].
    rewrite (bind_lift_ok _ url) by reflexivity.
    rewrite (bind_lift_ok _ bucket) by reflexivity.
    destruct (environ_get_present _ _ Hin) as [role Hr].
    rewrite (bind_lift_ok _ _ _ Hr).
    rewrite (environ_get_absent _ _ Hn). reflexivity.
Qed.

End ObjectBody.

Lemma handler_complete_body_not_400_witness :
  statusCode example_response = 200%Z.
Proof.
  apply (handler_complete_body_not_400 example_world example_event
           lambda_context example_request example_members
           (JStr "https://example.com/in/clip.mp4") (JStr "my-bucket")
           (JStr "us-east-1") (JInt 42)) with (t := example_trace);
    try reflexivity; vm_compute; reflexivity.
Defined.

Lemma handler_field_type_errors_witness :
  handler example_world (event_with_body example_request_numeric_source)
    lambda_context
  = ([Print [JStr "Req Body -"; JStr example_request_numeric_source]],
     Raise TypeError).
Proof.
  apply (proj1 (handler_field_type_errors example_world
                  (event_with_body example_request_numeric_source)
                  lambda_context example_request_numeric_source
                  [("video_source_url", JInt 7);
                   ("destination_bucket", JStr "my-bucket");
                   ("destination_bucket_region", JStr "us-east-1");
                   ("uniqueId", JInt 42)]
                  (JInt 7) (JStr "my-bucket") (JStr "us-east-1") (JInt 42)
                  eq_refl ltac:(vm_compute; reflexivity)
                  eq_refl eq_refl eq_refl eq_refl)).
  intros s. discriminate.
Defined.

Lemma handler_missing_environment_witness :
  handler (world_with_environ []) example_event lambda_context
    = ([Print [JStr "Req Body -"; JStr example_request]],
       Raise (KeyError "MediaConvertRole")) /\
  handler (world_with_environ [("MediaConvertRole", "role")]) example_event
    lambda_context
    = ([Print [JStr "Req Body -"; JStr example_request]],
       Raise (KeyError "AWS_DEFAULT_REGION")).
Proof.
  split.
  - apply (proj1 (handler_missing_environment (world_with_environ [])
                    example_event lambda_context example_request example_members
                    (JStr "https://example.com/in/clip.mp4") (JStr "my-bucket")
                    (JStr "us-east-1") (JInt 42)
                    eq_refl ltac:(vm_compute; reflexivity)
                    eq_refl eq_refl eq_refl eq_refl
                    "https://example.com/in/clip.mp4" "my-bucket"
                    eq_refl eq_refl)).
    cbn. tauto.
  - apply (proj2 (handler_missing_environment
                    (world_with_environ [("MediaConvertRole", "role")])
                    example_event lambda_context example_request example_members
                    (JStr "https://example.com/in/clip.mp4") (JStr "my-bucket")
                    (JStr "us-east-1") (JInt 42)
                    eq_refl ltac:(vm_compute; reflexivity)
                    eq_refl eq_refl eq_refl eq_refl
                    "https://example.com/in/clip.mp4" "my-bucket"
                    eq_refl eq_refl)).
    + cbn. tauto.
    + cbn. intros [E | []]. discriminate.
Defined.

(** ** From the template to the submitted job *)

(** An assignment under one key of a [dict] leaves its other keys alone. *)
Lemma assign_at_other_key (obj obj' : json) (a b : string)
    (path : list subscript) (k : string) (x : json) :
  assign_at obj (Key a :: path) k x = Ok obj' ->
  a <> b ->
  py_getitem obj' (Key b) = py_getitem obj (Key b).
Proof.
  intros H Hne. cbn [assign_at] in H.
  destruct (py_getitem obj (Key a)) as [child | e] eqn:Hget; cbn in H;
    [| discriminate].
  destruct (assign_at child path k x) as [child' | e]; cbn in H;
    [| discriminate].
  injection H as <-. destruct obj; cbn in Hget; try discriminate.
  cbn. now rewrite dict_get_set_other.
Qed.

Lemma bind_call_step {A B : Type} (ev : effect) (r : result A) (a : A)
    (f : A -> M B) (t : list effect) (res : result B) :
  r = Ok a -> f a = (t, res) -> bind (call ev r) f = (ev :: t, res).
Proof. intros -> Hf. unfold bind, call. now rewrite Hf. Qed.

Lemma bind_lift_step {A B : Type} (r : result A) (a : A)
    (f : A -> M B) (t : list effect) (res : result B) :
  r = Ok a -> f a = (t, res) -> bind (lift r) f = (t, res).
Proof. intros -> Hf. unfold bind, lift. now rewrite Hf. Qed.

Section CooperatingWorld.

Variables (w : world) (event : json) (context : LambdaContext).
Variables (text : string) (members : dict).
Variables (url bucket : string) (region uid : json).
Variables (role aws_region content : string).
Variables (template endpoints endpoint : json).

Hypothesis Hbody : py_getitem event (Key "body") = Ok (JStr text).
Hypothesis Hloads : json_loads w text = Ok (JObj members).
Hypothesis Hurl : dict_get "video_source_url" members = Some (JStr url).
Hypothesis Hbucket : dict_get "destination_bucket" members = Some (JStr bucket).
Hypothesis Hregion : dict_get "destination_bucket_region" members = Some region.
Hypothesis Huid : dict_get "uniqueId" members = Some uid.
Hypothesis Hrole : environ_get (environ w) "MediaConvertRole" = Ok role.
Hypothesis Haws : environ_get (environ w) "AWS_DEFAULT_REGION" = Ok aws_region.
Hypothesis Hfile : read_file w "job.json" = Ok content.
Hypothesis Htemplate : json_load w content = Ok template.
Hypothesis Hclient1 : boto3_client w (discovery_client aws_region) = Ok tt.
Hypothesis Hendpoints :
  describe_endpoints w (discovery_client aws_region) = Ok endpoints.
Hypothesis Hendpoint :
  py_getitem_path endpoints [Key "Endpoints"; Index 0; Key "Url"] = Ok endpoint.
Hypothesis Hclient2 : boto3_client w (job_client aws_region endpoint) = Ok tt.

Lemma cooperating_valid_request :
  valid_request (JObj members) url bucket region uid.
Proof. repeat split; apply py_getitem_dict; assumption. Qed.

Lemma submit_job_cooperating (t : list effect) (res : result (json * string)) :
  fill_and_submit w template url bucket uid role aws_region endpoint = (t, res) ->
  submit_job w url (py_str w uid) (destinationS3 bucket) (sourceS3Basename url)
    (currentTime_in_string w) role aws_region
    (JObj [("assetID", JStr (py_str w uid))])
  = (Open "job.json" :: Boto3Client (discovery_client aws_region)
       :: DescribeEndpoints (discovery_client aws_region)
       :: Boto3Client (job_client aws_region endpoint) :: t, res).
Proof.
  intros Hf. unfold submit_job.
  eapply bind_call_step; [exact Hfile |].
  eapply bind_lift_step; [exact Htemplate |].
  eapply bind_call_step; [exact Hclient1 |].
  eapply bind_call_step; [exact Hendpoints |].
  eapply bind_lift_step; [exact Hendpoint |].
  eapply bind_call_step; [exact Hclient2 |].
  exact Hf.
Qed.

(** X8. When the template is read and parsed, the endpoint discovered,
    both fields of the template assigned and the job accepted, the
    handler returns the success response after exactly six effects: the
    [print], the [open], the client of the region, [describe_endpoints],
    the client of the discovered endpoint (the [Url] of the first entry
    of [Endpoints]) and one [create_job].  The job carries the role of
    the environment, the metadata [{'assetID': str(uniqueId)}] and the
    template in which [Inputs[0].FileInput] is the source locator and
    the destination of the HLS group is ['s3://' + bucket + key]. *)
Theorem handler_submits_job (filled settings job : json) :
  assign_at template inputs_path "FileInput" (JStr url) = Ok filled ->
  assign_at filled hls_group_path "Destination"
    (JStr (destinationS3 bucket
             ++ video_S3Key (py_str w uid) (currentTime_in_string w)
                  (sourceS3Basename url))) = Ok settings ->
  create_job w (job_client aws_region endpoint) role
    (JObj [("assetID", JStr (py_str w uid))]) settings = Ok job ->
  handler w event context =
    ((calls_before_submission text aws_region endpoint
        ++ [CreateJob (job_client aws_region endpoint) role
              (JObj [("assetID", JStr (py_str w uid))]) settings])%list,
     Ok {| statusCode := 200;
           body := json_dumps (JObj (success_output w url bucket region uid));
           headers := cors_headers |}) /\
  py_getitem_path settings [Key "Inputs"; Index 0; Key "FileInput"]
    = Ok (JStr url) /\
  py_getitem_path settings
    [Key "OutputGroups"; Index 0; Key "OutputGroupSettings";
     Key "HlsGroupSettings"; Key "Destination"]
    = Ok (JStr ("s3://" ++ bucket
                 ++ video_S3Key (py_str w uid) (currentTime_in_string w)
                      (sourceS3Basename url))).
Proof.
  intros Hfill1 Hfill2 Hjob.
  assert (Hs : fill_and_submit w template url bucket uid role aws_region endpoint =
               ([CreateJob (job_client aws_region endpoint) role
                   (JObj [("assetID", JStr (py_str w uid))]) settings],
                Ok (settings,
                    video_S3Key (py_str w uid) (currentTime_in_string w)
                      (sourceS3Basename url)))).
  { unfold fill_and_submit.
    eapply bind_lift_step; [exact Hfill1 |].
    eapply bind_lift_step; [exact Hfill2 |].
    eapply bind_call_step; [exact Hjob |]. reflexivity. }
  apply submit_job_cooperating in Hs.
  split; [| split].
  - erewrite handler_success;
      [reflexivity | exact Hbody | exact Hloads
      | exact (complete_body_passes _ _ _ _ _ Hurl Hbucket Hregion Huid)
      | exact cooperating_valid_request | exact Hrole | exact Haws | exact Hs].
  - change [Key "Inputs"; Index 0; Key "FileInput"]
      with (Key "Inputs" :: [Index 0; Key "FileInput"]).
    cbn [py_getitem_path].
    rewrite (assign_at_other_key _ _ "OutputGroups" "Inputs" _ _ _ Hfill2)
      by discriminate.
    exact (assign_at_read_back inputs_path "FileInput" _ _ _ Hfill1).
  - exact (assign_at_read_back hls_group_path "Destination" _ _ _ Hfill2).
Qed.

(** X9. A template in which [Inputs[0]] or the HLS group of
    [OutputGroups[0]] cannot be assigned (a missing key, an empty list, a
    value of another type) is never submitted: after the two clients are
    built the exception of the assignment is printed and the handler
    raises [UnboundLocalError]; [create_job] is not called. *)
Theorem handler_unfillable_template (e : exn) :
  assign_at template inputs_path "FileInput" (JStr url) = Raise e \/
  (exists filled,
      assign_at template inputs_path "FileInput" (JStr url) = Ok filled /\
      assign_at filled hls_group_path "Destination"
        (JStr (destinationS3 bucket
                 ++ video_S3Key (py_str w uid) (currentTime_in_string w)
                      (sourceS3Basename url))) = Raise e) ->
  handler w event context =
    ((calls_before_submission text aws_region endpoint
        ++ [PrintException e])%list,
     Raise (UnboundLocalError "outputData")).
Proof.
  intros Hfail.
  assert (Hs : fill_and_submit w template url bucket uid role aws_region endpoint
               = ([], Raise e)).
  { unfold fill_and_submit. destruct Hfail as [H1 | (filled & H1 & H2)].
    - now rewrite H1.
    - eapply bind_lift_step; [exact H1 |]. now rewrite H2. }
  apply submit_job_cooperating in Hs.
  erewrite handler_failure;
    [reflexivity | exact Hbody | exact Hloads
    | exact (complete_body_passes _ _ _ _ _ Hurl Hbucket Hregion Huid)
    | exact cooperating_valid_request | exact Hrole | exact Haws | exact Hs].
Qed.

End CooperatingWorld.

(** ** Every way an invocation can end *)

Lemma py_getitem_key_raises (obj : json) (k : string) (e : exn) :
  py_getitem obj (Key k) = Raise e -> raised_before_try e = true.
Proof.
  destruct obj; cbn; intros H; try (injection H as <-; reflexivity).
  destruct (dict_get k members); [discriminate | injection H as <-; reflexivity].
Qed.

Lemma loads_raises (w : world) (v : json) (e : exn) :
  loads w v = Raise e -> raised_before_try e = true.
Proof.
  destruct v; cbn; intros H; try (injection H as <-; reflexivity).
  destruct (json_loads_raises _ _ _ H) as [-> | [-> | ->]]; reflexivity.
Qed.

Lemma missing_required_raises (reqBody : json) (e : exn) :
  missing_required reqBody = Raise e -> raised_before_try e = true.
Proof.
  destruct reqBody; cbn; intros H; try (injection H as <-; reflexivity);
    unfold missing_required, py_not_in, py_in in H; cbn in H;
    repeat match type of H with
           | context [negb ?b] => destruct b; cbn in H
           end; discriminate.
Qed.

Lemma as_str_raises (v : json) (e : exn) :
  as_str v = Raise e -> raised_before_try e = true.
Proof. destruct v; cbn; intros H; try discriminate; now injection H as <-. Qed.

Lemma environ_get_raises (env : list (string * string)) (name : string) (e : exn) :
  environ_get env name = Raise e -> raised_before_try e = true.
Proof.
  induction env as [| [k v] env IH]; cbn [environ_get]; intros H.
  - now injection H as <-.
  - destruct (String.eqb name k); [discriminate | auto].
Qed.

(** When lines 46 to 70 raise, they made the first [n] of the five outside
    calls, [n] being at least one: the [open] is always attempted. *)
Lemma submit_job_raises (w : world) (url uid dest base ts role region : string)
    (meta : json) (t : list effect) (e : exn) :
  submit_job w url uid dest base ts role region meta = (t, Raise e) ->
  exists endpoint settings n,
    1 <= n <= 5 /\
    t = firstn n (outside_calls region endpoint role meta settings).
Proof.
  unfold submit_job, bind, call, lift, ret, outside_calls.
  fold (discovery_client region).
  destruct (read_file w "job.json") as [content | e0];
    [| intros H; injection H as <- _; exists JNull, JNull, 1; split; [lia | reflexivity]].
  destruct (json_load w content) as [template | e0]; cbn [app];
    [| intros H; injection H as <- _; exists JNull, JNull, 1; split; [lia | reflexivity]].
  destruct (boto3_client w (discovery_client region)) as [[] | e0]; cbn [app];
    [| intros H; injection H as <- _; exists JNull, JNull, 2; split; [lia | reflexivity]].
  destruct (describe_endpoints w (discovery_client region)) as [endpoints | e0];
    cbn [app];
    [| intros H; injection H as <- _; exists JNull, JNull, 3; split; [lia | reflexivity]].
  destruct (py_getitem_path endpoints [Key "Endpoints"; Index 0; Key "Url"])
    as [endpoint | e0]; cbn [app];
    [| intros H; injection H as <- _; exists JNull, JNull, 3; split; [lia | reflexivity]].
  fold (job_client region endpoint).
  destruct (boto3_client w (job_client region endpoint)) as [[] | e0]; cbn [app];
    [| intros H; injection H as <- _; exists endpoint, JNull, 4;
       split; [lia | reflexivity]].
  destruct (assign_at template inputs_path "FileInput" (JStr url))
    as [filled | e0]; cbn [app];
    [| intros H; injection H as <- _; exists endpoint, JNull, 4;
       split; [lia | reflexivity]].
  destruct (assign_at filled hls_group_path "Destination"
              (JStr (dest ++ video_S3Key uid ts base))) as [settings | e0];
    cbn [app];
    [| intros H; injection H as <- _; exists endpoint, JNull, 4;
       split; [lia | reflexivity]].
  destruct (create_job w (job_client region endpoint) role meta settings)
    as [job | e0]; cbn [app]; intros H; [discriminate |].
  injection H as <- _. exists endpoint, settings, 5. split; [lia | reflexivity].
Qed.

(** [convert] ends in one of three ways. *)
Lemma convert_run_cases (w : world) (reqBody : json) :
  (exists e, raised_before_try e = true /\ convert w reqBody = ([], Raise e)) \/
  (exists aws endpoint role meta settings e n,
      1 <= n <= 5 /\
      convert w reqBody =
        ((firstn n (outside_calls aws endpoint role meta settings)
            ++ [PrintException e])%list,
         Raise (UnboundLocalError "outputData"))) \/
  (exists aws endpoint role meta settings resp,
      statusCode resp = 200%Z /\
      convert w reqBody
        = (outside_calls aws endpoint role meta settings, Ok resp)).
Proof.
  unfold convert.
  destruct (py_getitem reqBody (Key "video_source_url")) as [url_v | e] eqn:H1;
    [rewrite (bind_lift_ok _ url_v) by reflexivity
    | left; exists e; split; [eapply py_getitem_key_raises; eauto | reflexivity]].
  destruct (py_getitem reqBody (Key "destination_bucket")) as [bucket_v | e] eqn:H2;
    [rewrite (bind_lift_ok _ bucket_v) by reflexivity
    | left; exists e; split; [eapply py_getitem_key_raises; eauto | reflexivity]].
  destruct (py_getitem reqBody (Key "destination_bucket_region"))
    as [region | e] eqn:H3;
    [rewrite (bind_lift_ok _ region) by reflexivity
    | left; exists e; split; [eapply py_getitem_key_raises; eauto | reflexivity]].
  destruct (py_getitem reqBody (Key "uniqueId")) as [uid | e] eqn:H4;
    [rewrite (bind_lift_ok _ uid) by reflexivity
    | left; exists e; split; [eapply py_getitem_key_raises; eauto | reflexivity]].
  destruct (as_str url_v) as [url | e] eqn:H5;
    [rewrite (bind_lift_ok _ url) by reflexivity
    | left; exists e; split; [eapply as_str_raises; eauto | reflexivity]].
  destruct (as_str bucket_v) as [bucket | e] eqn:H6;
    [rewrite (bind_lift_ok _ bucket) by reflexivity
    | left; exists e; split; [eapply as_str_raises; eauto | reflexivity]].
  destruct (environ_get (environ w) "MediaConvertRole") as [role | e] eqn:H7;
    [rewrite (bind_lift_ok _ role) by reflexivity
    | left; exists e; split; [eapply environ_get_raises; eauto | reflexivity]].
  destruct (environ_get (environ w) "AWS_DEFAULT_REGION") as [aws | e] eqn:H8;
    [rewrite (bind_lift_ok _ aws) by reflexivity
    | left; exists e; split; [eapply environ_get_raises; eauto | reflexivity]].
  right.
  destruct (try_body _ _ _ _ _ _ _ _ _ _ _) as [[t od] r] eqn:Ht.
  apply try_body_cases in Ht.
  destruct Ht as [(e & Hs & -> & ->) | (js & Hs & -> & ->)].
  - left. apply submit_job_raises in Hs.
    destruct Hs as (endpoint & settings & n & Hn & ->).
    exists aws, endpoint, role, (JObj [("assetID", JStr (py_str w uid))]),
      settings, e, n. split; [exact Hn | reflexivity].
  - right. apply submit_job_ok in Hs. destruct Hs as (_ & _ & endpoint & ->).
    exists aws, endpoint, role, (JObj [("assetID", JStr (py_str w uid))]), js.
    eexists. split; [| reflexivity]. reflexivity.
Qed.

(** The five ways an invocation can end. *)
Lemma handler_run_cases (w : world) (event : json) (context : LambdaContext) :
  (exists e, raised_before_try e = true /\
             handler w event context = ([], Raise e)) \/
  (exists b e, raised_before_try e = true /\
               handler w event context
                 = ([Print [JStr "Req Body -"; b]], Raise e)) \/
  (exists b, handler w event context
               = ([Print [JStr "Req Body -"; b]], Ok bad_request)) \/
  (exists b aws endpoint role meta settings e n,
      1 <= n <= 5 /\
      handler w event context =
        ((Print [JStr "Req Body -"; b]
            :: firstn n (outside_calls aws endpoint role meta settings)
            ++ [PrintException e])%list,
         Raise (UnboundLocalError "outputData"))) \/
  (exists b aws endpoint role meta settings resp,
      statusCode resp = 200%Z /\
      handler w event context =
        (Print [JStr "Req Body -"; b]
           :: outside_calls aws endpoint role meta settings, Ok resp)).
Proof.
  unfold handler.
  destruct (py_getitem event (Key "body")) as [b | e] eqn:Hb;
    [rewrite (bind_lift_ok _ b) by reflexivity
    | left; exists e; split; [eapply py_getitem_key_raises; eauto | reflexivity]].
  rewrite (bind_call_ok _ _ tt) by reflexivity.
  right.
  destruct (loads w b) as [reqBody | e] eqn:Hl;
    [rewrite (bind_lift_ok _ reqBody) by reflexivity
    | left; exists b, e; split; [eapply loads_raises; eauto | reflexivity]].
  destruct (missing_required reqBody) as [missing | e] eqn:Hm;
    [rewrite (bind_lift_ok _ missing) by reflexivity
    | left; exists b, e; split;
      [eapply missing_required_raises; eauto | reflexivity]].
  destruct missing.
  - right. left. exists b. reflexivity.
  - destruct (convert_run_cases w reqBody)
      as [(e & He & ->) | [(aws & endpoint & role & meta & settings & e & n
                            & Hn & ->)
                          | (aws & endpoint & role & meta & settings & resp
                             & Hs & ->)]].
    + left. exists b, e. split; [exact He | reflexivity].
    + right. right. left.
      exists b, aws, endpoint, role, meta, settings, e, n.
      split; [exact Hn | reflexivity].
    + right. right. right.
      exists b, aws, endpoint, role, meta, settings, resp.
      split; [exact Hs | reflexivity].
Qed.



(** X10. In every invocation, whatever its outcome, the outside calls are
    an initial part of one fixed sequence: the [open] of [job.json], the
    client of the region, [describe_endpoints] on it, the client of the
    discovered endpoint, [create_job] on that client.  So the job is
    submitted at most once, and only after the template was opened and
    the endpoint discovered. *)
Theorem handler_outside_call_order (w : world) (event : json)
    (context : LambdaContext) :
  (exists aws endpoint role meta settings n,
      filter is_outside_call (fst (handler w event context))
        = firstn n (outside_calls aws endpoint role meta settings)) /\
  length (filter is_create_job (fst (handler w event context))) <= 1.
Proof.
  destruct (handler_run_cases w event context)
    as [(e' & He & Hr) | [(b & e' & He & Hr) | [(b & Hr) |
        [(b & aws & endpoint & role & meta & settings & e' & n & Hn & Hr)
        | (b & aws & endpoint & role & meta & settings & resp & _ & Hr)]]]];
    rewrite Hr; cbn [fst].
  - split; [exists "", JNull, "", JNull, JNull, 0; reflexivity | cbn; lia].
  - split; [exists "", JNull, "", JNull, JNull, 0; reflexivity | cbn; lia].
  - split; [exists "", JNull, "", JNull, JNull, 0; reflexivity | cbn; lia].
  - split.
    + exists aws, endpoint, role, meta, settings, n.
      destruct n as [| [| [| [| [| [| n]]]]]]; try lia; reflexivity.
    + destruct n as [| [| [| [| [| [| n]]]]]]; try lia; cbn; lia.
  - split; [exists aws, endpoint, role, meta, settings, 5; reflexivity
           | cbn; lia].
Qed.

Lemma handler_submits_job_witness :
  exists settings,
    handler example_world example_event lambda_context =
      ((calls_before_submission example_request "us-west-2"
          (JStr "https://abcd1234.mediaconvert.us-west-2.amazonaws.com")
          ++ [CreateJob
                (job_client "us-west-2"
                   (JStr "https://abcd1234.mediaconvert.us-west-2.amazonaws.com"))
                "arn:aws:iam::123456789012:role/MediaConvert"
                (JObj [("assetID", JStr "42")]) settings])%list,
       Ok example_response) /\
    py_getitem_path settings [Key "Inputs"; Index 0; Key "FileInput"]
      = Ok (JStr "https://example.com/in/clip.mp4").
Proof.
  edestruct (handler_submits_job example_world example_event lambda_context
               example_request example_members) as (Hrun & Hinput & _).
  - reflexivity.
  - vm_compute. reflexivity.
  - reflexivity.
  - reflexivity.
  - reflexivity.
  - reflexivity.
  - reflexivity.
  - reflexivity.
  - reflexivity.
  - vm_compute. reflexivity.
  - reflexivity.
  - reflexivity.
  - reflexivity.
  - reflexivity.
  - vm_compute. reflexivity.
  - vm_compute. reflexivity.
  - reflexivity.
  - eexists. split; [exact Hrun | exact Hinput].
Defined.

Lemma handler_unfillable_template_witness :
  handler (world_with_template "{}") example_event lambda_context =
    ((calls_before_submission example_request "us-west-2"
        (JStr "https://abcd1234.mediaconvert.us-west-2.amazonaws.com")
        ++ [PrintException (KeyError "Inputs")])%list,
     Raise (UnboundLocalError "outputData")).
Proof.
  eapply (handler_unfillable_template (world_with_template "{}") example_event
            lambda_context example_request example_members).
  - reflexivity.
  - vm_compute. reflexivity.
  - reflexivity.
  - reflexivity.
  - reflexivity.
  - reflexivity.
  - reflexivity.
  - reflexivity.
  - reflexivity.
  - vm_compute. reflexivity.
  - reflexivity.
  - reflexivity.
  - reflexivity.
  - reflexivity.
  - left. reflexivity.
Defined.

(** ** The timestamp and the clock *)

(** X11. The timestamp has the resolution of a second: on clocks in
    range, two readings give the same timestamp exactly when they agree on
    year, month, day, hour, minute and second, whatever their
    microseconds. *)
Theorem timestamp_equal_iff_same_second (w1 w2 : world) :
  valid_datetime (now w1) -> valid_datetime (now w2) ->
  (currentTime_in_string w1 = currentTime_in_string w2 <->
   year (now w1) = year (now w2) /\ month (now w1) = month (now w2) /\
   day (now w1) = day (now w2) /\ hour (now w1) = hour (now w2) /\
   minute (now w1) = minute (now w2) /\ second (now w1) = second (now w2)).
Proof.
  intros H1 H2. split.
  - now apply timestamp_determines_second.
  - intros (Ey & Em & Ed & Eh & Emi & Es).
    rewrite !currentTime_in_string_fields.
    now rewrite Ey, Em, Ed, Eh, Emi, Es.
Qed.

Lemma timestamp_equal_iff_same_second_witness :
  currentTime_in_string example_world = currentTime_in_string same_second_world.
Proof.
  apply (timestamp_equal_iff_same_second example_world same_second_world).
  - unfold valid_datetime. cbn. lia.
  - unfold valid_datetime. cbn. lia.
  - cbn. tauto.
Defined.

(** ** The base name as a path *)

Lemma take_drop (n : nat) (s : string) : take n s ++ drop n s = s.
Proof.
  revert s. induction n as [| n IH]; intros [| c r]; cbn; auto.
  now rewrite IH.
Qed.

Lemma occurs_take_drop (c : ascii) (n : nat) (s : string) :
  occurs c s = false ->
  occurs c (take n s) = false /\ occurs c (drop n s) = false.
Proof.
  intros H. rewrite <- (take_drop n s), occurs_app in H.
  now apply orb_false_iff in H.
Qed.

Lemma basename_no_slash (p : string) : occurs slash (basename p) = false.
Proof.
  apply split_last_none_occurs, basename_split_last_none.
Qed.

Lemma sourceS3Basename_no_slash (url : string) :
  occurs slash (sourceS3Basename url) = false.
Proof.
  unfold sourceS3Basename, splitext.
  destruct (_ <? _)%Z; [| apply basename_no_slash].
  destruct (non_dot_before _ _ _); [| apply basename_no_slash].
  cbn [fst]. apply occurs_take_drop, basename_no_slash.
Qed.

(** X12. The base name [os.path.basename] returns is the end of the path:
    the path is a directory part, empty or ending in [/], followed by the
    base name, and the base name holds no [/].  The same is true of the
    name that goes into the object key, so the key ends in exactly one
    segment after [/HLS/]. *)
Theorem basename_is_last_component (p : string) :
  (exists dir,
      p = dir ++ basename p /\
      (dir = "" \/ exists d, dir = d ++ "/")) /\
  occurs slash (basename p) = false /\
  occurs slash (sourceS3Basename p) = false.
Proof.
  split; [| split].
  - rewrite basename_split_last.
    destruct (split_last slash p) as [[before after] |] eqn:E.
    + apply split_last_app in E. exists (before ++ "/"). split.
      * now rewrite str_app_assoc.
      * right. eauto.
    + exists "". auto.
  - apply basename_no_slash.
  - apply sourceS3Basename_no_slash.
Qed.

Lemma drop_drop (n m : nat) (s : string) : drop (n + m) s = drop m (drop n s).
Proof.
  revert s. induction n as [| n IH]; intros s; cbn [Nat.add drop].
  - reflexivity.
  - destruct s as [| c r]; [now destruct m | apply IH].
Qed.

Lemma rfind_split_last (c : ascii) (s : string) :
  rfind c s =
    match split_last c s with
    | Some (before, _) => Z.of_nat (String.length before)
    | None => (-1)%Z
    end.
Proof.
  unfold rfind. rewrite rfind_from_split_last.
  destruct (split_last c s) as [[before after] |]; lia.
Qed.

(** X13. [os.path.splitext] cuts the path in two: the root followed by the
    extension is the path again, and the extension is empty or is a dot
    followed by characters that are neither a dot nor a [/]. *)
Theorem splitext_splits (p : string) :
  fst (splitext p) ++ snd (splitext p) = p /\
  (snd (splitext p) = "" \/
   exists e, snd (splitext p) = String dot e /\
             occurs dot e = false /\ occurs slash e = false).
Proof.
  unfold splitext. rewrite !rfind_split_last.
  destruct (split_last dot p) as [[stem ext] |] eqn:Ed.
  2:{ destruct (split_last slash p) as [[b a] |];
        destruct (_ <? _)%Z eqn:E; try (apply Z.ltb_lt in E; lia);
        cbn [fst snd]; rewrite str_app_nil_r; auto. }
  destruct (_ <? _)%Z eqn:Elt; [| cbn [fst snd]; rewrite str_app_nil_r; auto].
  destruct (non_dot_before _ _ _);
    [| cbn [fst snd]; rewrite str_app_nil_r; auto].
  cbn [fst snd]. rewrite Nat2Z.id. split; [apply take_drop |].
  right. exists ext.
  pose proof (split_last_after _ _ _ _ Ed) as Hdot.
  apply split_last_none_occurs in Hdot.
  pose proof (split_last_app _ _ _ _ Ed) as Hp.
  assert (Hext : drop (String.length stem) p = String dot ext).
  { rewrite Hp. apply drop_app. }
  split; [exact Hext |]. split; [exact Hdot |].
  apply Z.ltb_lt in Elt.
  assert (Hext' : ext = drop (String.length stem + 1) p).
  { rewrite drop_drop, Hext. reflexivity. }
  destruct (split_last slash p) as [[b a] |] eqn:Es.
  - pose proof (split_last_after _ _ _ _ Es) as Hs.
    apply split_last_none_occurs in Hs.
    pose proof (split_last_app _ _ _ _ Es) as Hp'.
    assert (Ha : a = drop (String.length b + 1) p).
    { rewrite drop_drop. rewrite Hp' at 1. now rewrite drop_app. }
    rewrite Hext'.
    replace (String.length stem + 1)
      with ((String.length b + 1) + (String.length stem - String.length b))
      by lia.
    rewrite drop_drop, <- Ha. now apply occurs_take_drop.
  - apply split_last_none_occurs in Es. rewrite Hext'.
    now apply occurs_take_drop.
Qed.

(** ** The object key read backwards *)

Lemma str_app_inv_length (a b c d : string) :
  a ++ b = c ++ d -> String.length a = String.length c -> a = c /\ b = d.
Proof.
  revert c. induction a as [| x a IH]; intros [| y c] H Hl; cbn in *;
    try discriminate.
  - auto.
  - injection H as -> H. destruct (IH c H) as [-> ->]; [lia | auto].
Qed.

(** A text is cut at its last [/] in one way only. *)
Lemma split_at_last_slash_unique (x1 x2 b1 b2 : string) :
  occurs slash b1 = false -> occurs slash b2 = false ->
  x1 ++ String slash b1 = x2 ++ String slash b2 ->
  x1 = x2 /\ b1 = b2.
Proof.
  revert x2. induction x1 as [| c x1 IH]; intros [| d x2] H1 H2 E; cbn in E.
  - injection E as ->. auto.
  - injection E as <- E. rewrite E, occurs_app in H1. cbn in H1.
    rewrite orb_true_r in H1. discriminate.
  - injection E as -> E. rewrite <- E, occurs_app in H2. cbn in H2.
    rewrite orb_true_r in H2. discriminate.
  - injection E as -> E. destruct (IH x2 H1 H2 E) as [-> ->]. auto.
Qed.

(** X14. The object key determines what it was built from: two keys the
    handler derives are equal only when the stringified identifiers, the
    timestamps and the base names are equal.  (The base name holds no
    [/] and the timestamp has fourteen characters, so the key is read
    back from its end even when the identifier holds a [/].) *)
Theorem object_key_determines_parts (uid1 uid2 url1 url2 : string)
    (w1 w2 : world) :
  video_S3Key uid1 (currentTime_in_string w1) (sourceS3Basename url1)
    = video_S3Key uid2 (currentTime_in_string w2) (sourceS3Basename url2) ->
  uid1 = uid2 /\
  currentTime_in_string w1 = currentTime_in_string w2 /\
  sourceS3Basename url1 = sourceS3Basename url2.
Proof.
  unfold video_S3Key. intros E.
  apply (str_app_inv_head "/public/") in E.
  set (t1 := currentTime_in_string w1) in *.
  set (t2 := currentTime_in_string w2) in *.
  set (b1 := sourceS3Basename url1) in *.
  set (b2 := sourceS3Basename url2) in *.
  assert (E' : (uid1 ++ "/" ++ t1 ++ "/HLS") ++ String slash b1
               = (uid2 ++ "/" ++ t2 ++ "/HLS") ++ String slash b2).
  { rewrite !str_app_assoc. cbn [append] in *. exact E. }
  apply split_at_last_slash_unique in E';
    try (apply sourceS3Basename_no_slash).
  destruct E' as [E' Eb].
  assert (E'' : (uid1 ++ "/") ++ t1 ++ "/HLS" = (uid2 ++ "/") ++ t2 ++ "/HLS").
  { rewrite !str_app_assoc. cbn [append] in *. exact E'. }
  assert (Hlen : String.length (uid1 ++ "/") = String.length (uid2 ++ "/")).
  { apply (f_equal String.length) in E''.
    rewrite !str_app_length in E''. unfold t1, t2 in E''.
    rewrite !currentTime_in_string_length in E''.
    rewrite !str_app_length. lia. }
  destruct (str_app_inv_length _ _ _ _ E'' Hlen) as [Eu Et].
  apply str_app_inv_tail in Eu. apply str_app_inv_tail in Et. auto.
Qed.

Lemma object_key_determines_parts_witness :
  "42" = "42" /\
  currentTime_in_string example_world = currentTime_in_string same_second_world /\
  sourceS3Basename "https://example.com/in/clip.mp4"
    = sourceS3Basename "https://cdn.example.org/other/clip.mov".
Proof.
  apply (object_key_determines_parts "42" "42"
           "https://example.com/in/clip.mp4"
           "https://cdn.example.org/other/clip.mov"
           example_world same_second_world).
  vm_compute. reflexivity.
Defined.

(** ** What the handler leaves of the template *)


